(** * Quota tracking and command dispatch of the Discord relay bot

    A shallow embedding of [chatgpt_discord_bot_v1.0.py]: the
    per-user request counters kept in the dictionary
    [user_request_data], their persistence to [user_requests.json],
    the 24-hour reset windows, the wait-time rendering and the two
    quota-gated commands [!ask] and [!make] of [on_message].

    Conventions of the embedding:
    - a naive [datetime] is the number of microseconds since
      [datetime.min] on the local time line, an offset-aware one the
      number of microseconds of its instant; a [timedelta] is a
      (possibly negative) number of microseconds; all are [Z], and the
      arithmetic is exact: the [OverflowError] of a date beyond
      [datetime.max] is not modelled, so timestamps within 24 hours of
      [datetime.max] are outside the embedding, and the statements
      about what the handler can raise exclude them by hypothesis;
    - a Python [str] is a [string] whose characters are code points
      below 256;
    - the dictionary and the nested per-user dictionaries are finite
      maps with string keys; the nested values are JSON scalars;
    - the module-level state, the file, the exceptions and the
      observable actions (file writes, remote calls, replies, operator
      log lines) are threaded through one monad [M]. *)

From Stdlib Require Import ZArith String Ascii List Lia DecimalString.
From stdpp Require Import gmap strings list fin_maps.

Local Open Scope string_scope.
Local Open Scope Z_scope.

(** ** Data model *)

(** The values found under the keys of a user's dictionary.  [JIso t]
    is the JSON string [t.isoformat()] of the naive datetime [t];
    [datetime.fromisoformat] maps it back to [t].  [JIsoAware t] is a
    timestamp string that carries a UTC offset, such as
    [2024-05-01T10:00:00+00:00], of the instant [t]:
    [datetime.fromisoformat] accepts it and gives an offset-aware
    datetime.  [JStr s] is any string that [datetime.fromisoformat]
    does not accept.  The other JSON values (floats, booleans, null,
    arrays, objects) and users mapped to something else than an object
    are not covered. *)
Inductive json : Type :=
  | JInt (n : Z)
  | JIso (t : Z)
  | JIsoAware (t : Z)
  | JStr (s : string).

#[global] Instance json_eq_dec : EqDecision json.
Proof. solve_decision. Defined.

(** Contents of [user_request_data] (and of the JSON file): user id to
    the user's dictionary. *)
Abbreviation record := (gmap string json).
Abbreviation mapping := (gmap string (gmap string json)).

(** The module-level dictionary together with the file
    [REQUEST_COUNT_FILE]: [None] when the file does not exist, else the
    mapping that its JSON text denotes. *)
Record state : Type := mkState {
  user_request_data : mapping;
  request_count_file : option mapping
}.

Definition REQUEST_LIMIT : Z := 24.
Definition IMAGE_REQUEST_LIMIT : Z := 12.
Definition RESET_HOURS : Z := 24.

(** [timedelta(hours=h)] in microseconds. *)
Definition timedelta_hours (h : Z) : Z := h * 3600 * 1000000.

(** ** Exceptions *)

(** The exception classes that the handler can meet: three builtins and
    the classes that [on_message] imports from the [openai] package
    (version 1 and later, the versions that export [OpenAI]), with the
    two intermediate classes of that package. *)
Inductive exn_class : Type :=
  | Exception
  | KeyError
  | ValueError
  | TypeError
  | OpenAIError
  | APIError
  | APIConnectionError
  | APIStatusError
  | RateLimitError
  | AuthenticationError.

#[global] Instance exn_class_eq_dec : EqDecision exn_class.
Proof. solve_decision. Defined.

(** Direct base class, as declared in Python and in [openai/_exceptions.py]
    ([LookupError], between [KeyError] and [Exception], is left out). *)
Definition base (c : exn_class) : option exn_class :=
  match c with
  | Exception => None
  | KeyError | ValueError | TypeError | OpenAIError => Some Exception
  | APIError => Some OpenAIError
  | APIConnectionError | APIStatusError => Some APIError
  | RateLimitError | AuthenticationError => Some APIStatusError
  end.

Fixpoint issubclass_upto (fuel : nat) (c d : exn_class) : bool :=
  if decide (c = d) then true
  else match fuel with
       | O => false
       | S fuel' =>
           match base c with
           | Some b => issubclass_upto fuel' b d
           | None => false
           end
       end.

(** The hierarchy has depth four. *)
Definition issubclass (c d : exn_class) : bool := issubclass_upto 4 c d.

(** ** Observable actions *)

Inductive request : Type :=
  | ChatCompletion (text : string) (image_url : option string)
  | ImageGenerate (prompt : string).

(** What the handler does to the outside, in the order in which it does
    it.  Writing the file, printing and sending are taken to succeed. *)
Inductive event : Type :=
  | Saved (m : mapping)                   (* json.dump to REQUEST_COUNT_FILE *)
  | Called (r : request)                  (* a call of the OpenAI client *)
  | Printed (line : string) (e : exn_class) (* print(f"...: {e}") *)
  | Sent (text : string).                 (* message.channel.send *)

(** ** The monad of the handler: state, exceptions, trace *)

Inductive result (A : Type) : Type :=
  | Return (a : A)
  | Raise (e : exn_class).
Arguments Return {A} a.
Arguments Raise {A} e.

Definition M (A : Type) : Type := state -> result A * state * list event.

Definition ret {A} (a : A) : M A := fun s => (Return a, s, []).

Definition raise {A} (e : exn_class) : M A := fun s => (Raise e, s, []).

Definition bind {A B} (m : M A) (k : A -> M B) : M B :=
  fun s =>
    match m s with
    | (Return a, s1, l1) =>
        match k a s1 with
        | (r, s2, l2) => (r, s2, (l1 ++ l2)%list)
        end
    | (Raise e, s1, l1) => (Raise e, s1, l1)
    end.

Notation "x <- m ;; k" := (bind m (fun x => k))
  (at level 100, m at next level, k at level 200, right associativity).
Notation "m ;;; k" := (bind m (fun _ => k))
  (at level 100, k at level 200, right associativity).

Definition emit (e : event) : M unit := fun s => (Return tt, s, [e]).

(** [when b m] is the statement [if b: m]. *)
Definition when (b : bool) (m : M unit) : M unit := if b then m else ret tt.

(** [user_id in user_request_data] *)
Definition has_user (user_id : string) : M bool :=
  fun s => (Return (bool_decide (is_Some (user_request_data s !! user_id))), s, []).

(** [user_request_data[user_id] = r] *)
Definition set_user (user_id : string) (r : record) : M unit :=
  fun s => (Return tt,
            mkState (<[user_id := r]> (user_request_data s)) (request_count_file s),
            []).

(** [user_request_data[user_id]] *)
Definition get_user (user_id : string) : M record :=
  fun s => match user_request_data s !! user_id with
           | Some r => (Return r, s, [])
           | None => (Raise KeyError, s, [])
           end.

(** [key in user_request_data[user_id]] *)
Definition has_key (user_id key : string) : M bool :=
  r <- get_user user_id ;;
  ret (bool_decide (is_Some (r !! key))).

(** [user_request_data[user_id][key]] *)
Definition getitem (user_id key : string) : M json :=
  r <- get_user user_id ;;
  match r !! key with
  | Some v => ret v
  | None => raise KeyError
  end.

(** [user_request_data[user_id][key] = v]: the user's dictionary is
    updated in place. *)
Definition setitem (user_id key : string) (v : json) : M unit :=
  r <- get_user user_id ;;
  set_user user_id (<[key := v]> r).

(** A [datetime] value: naive, as [datetime.now()] gives it, or
    offset-aware. *)
Inductive datetime : Type :=
  | Naive (t : Z)
  | Aware (t : Z).

(** [datetime.fromisoformat] *)
Definition fromisoformat (v : json) : M datetime :=
  match v with
  | JIso t => ret (Naive t)
  | JIsoAware t => ret (Aware t)
  | JStr _ => raise ValueError
  | JInt _ => raise TypeError
  end.

(** [a - b] on datetimes: a [timedelta], or [TypeError] when one is
    naive and the other offset-aware. *)
Definition datetime_sub (a b : datetime) : M Z :=
  match a, b with
  | Naive x, Naive y | Aware x, Aware y => ret (x - y)
  | Naive _, Aware _ | Aware _, Naive _ => raise TypeError
  end.

(** [a + delta] for a [timedelta]. *)
Definition datetime_add (a : datetime) (delta : Z) : datetime :=
  match a with
  | Naive x => Naive (x + delta)
  | Aware x => Aware (x + delta)
  end.

(** The three components of a run. *)
Definition result_of {A} (x : result A * state * list event) : result A := fst (fst x).
Definition state_of {A} (x : result A * state * list event) : state := snd (fst x).
Definition events_of {A} (x : result A * state * list event) : list event := snd x.

(** [user_request_data[user_id].get(key)] of a state, [None] when the
    user or the key is missing. *)
Definition field (s : state) (user_id key : string) : option json :=
  user_request_data s !! user_id ≫= (fun r : record => r !! key).

(** ** Loading and saving *)

(** The module-level statement that loads the file or creates it. *)
Definition load (disk : option mapping) : state * list event :=
  match disk with
  | Some m => (mkState m (Some m), [])
  | None => (mkState ∅ (Some ∅), [Saved ∅])
  end.

Definition save_user_request_data : M unit :=
  fun s => (Return tt,
            mkState (user_request_data s) (Some (user_request_data s)),
            [Saved (user_request_data s)]).

(** ** check_and_reset_user_count *)

Definition new_user_data (now : Z) : record :=
  <["count" := JInt 0]>
  (<["image_count" := JInt 0]>
  (<["last_reset" := JIso now]>
  (<["last_image_reset" := JIso now]> ∅))).

(** [now] is the value of [datetime.now()] read on entry. *)
Definition check_and_reset_user_count (user_id : string) (now : Z) : M unit :=
  known <- has_user user_id ;;
  if negb known then
    set_user user_id (new_user_data now) ;;;
    save_user_request_data
  else
    b1 <- has_key user_id "last_reset" ;;
    when (negb b1) (setitem user_id "last_reset" (JIso now)) ;;;
    b2 <- has_key user_id "image_count" ;;
    when (negb b2) (setitem user_id "image_count" (JInt 0)) ;;;
    b3 <- has_key user_id "last_image_reset" ;;
    when (negb b3) (setitem user_id "last_image_reset" (JIso now)) ;;;
    v1 <- getitem user_id "last_reset" ;;
    last_reset <- fromisoformat v1 ;;
    v2 <- getitem user_id "last_image_reset" ;;
    last_image_reset <- fromisoformat v2 ;;
    since_reset <- datetime_sub (Naive now) last_reset ;;
    when (since_reset >? timedelta_hours RESET_HOURS)
      (setitem user_id "count" (JInt 0) ;;;
       setitem user_id "last_reset" (JIso now)) ;;;
    since_image_reset <- datetime_sub (Naive now) last_image_reset ;;
    when (since_image_reset >? timedelta_hours RESET_HOURS)
      (setitem user_id "image_count" (JInt 0) ;;;
       setitem user_id "last_image_reset" (JIso now)) ;;;
    save_user_request_data.

(** ** Strings *)

(** [s.startswith(p)] *)
Definition startswith (s p : string) : bool := String.prefix p s.

(** [s[n:]] *)
Fixpoint slice_from (n : nat) (s : string) : string :=
  match n, s with
  | O, _ => s
  | S _, EmptyString => EmptyString
  | S n', String _ s' => slice_from n' s'
  end.

(** [str.isspace] on one code point below 256: TAB to CR, FS to US,
    SPACE, NEL and NBSP. *)
Definition isspace (a : ascii) : bool :=
  let n := N_of_ascii a in
  ((9 <=? n) && (n <=? 13) || (28 <=? n) && (n <=? 32)
   || (n =? 133) || (n =? 160))%N.

Fixpoint lstrip (s : string) : string :=
  match s with
  | EmptyString => EmptyString
  | String a s' => if isspace a then lstrip s' else s
  end.

Fixpoint string_rev_onto (s acc : string) : string :=
  match s with
  | EmptyString => acc
  | String a s' => string_rev_onto s' (String a acc)
  end.

Definition string_rev (s : string) : string := string_rev_onto s EmptyString.

Definition rstrip (s : string) : string := string_rev (lstrip (string_rev s)).

(** [s.strip()] *)
Definition strip (s : string) : string := rstrip (lstrip s).

(** [str(n)], as the f-strings render an [int]. *)
Definition str_of_int (n : Z) : string := NilZero.string_of_int (Z.to_int n).

(** ** time_until_reset *)

(** The [seconds] attribute of a [timedelta]: a [timedelta] is kept
    normalised as days, seconds in [0, 86400) and microseconds in
    [0, 10^6), with the sign carried by the days. *)
Definition timedelta_seconds (td : Z) : Z := (td mod 86400000000) / 1000000.

(** [now] is the value of [datetime.now()] read inside the function.
    The sum of line 78 is taken not to pass [datetime.max]. *)
Definition time_until_reset (user_id reset_type : string) (now : Z) : M string :=
  v <- getitem user_id reset_type ;;
  last_reset <- fromisoformat v ;;
  let reset_time := datetime_add last_reset (timedelta_hours RESET_HOURS) in
  time_remaining <- datetime_sub reset_time (Naive now) ;;
  let hours := timedelta_seconds time_remaining / 3600 in
  let remainder := timedelta_seconds time_remaining mod 3600 in
  let minutes := remainder / 60 in
  ret (str_of_int hours ++ "h" ++ str_of_int minutes ++ "m").

(** ** on_message *)

Record message : Type := mkMessage {
  author_is_self : bool;        (* message.author == discord_client.user *)
  author_id : string;           (* str(message.author.id) *)
  content : string;
  attachments : list string     (* the url of each attachment *)
}.

(** What one remote call does: it returns the text (or the image url)
    of its response, or it raises. *)
Inductive outcome : Type :=
  | Responded (text : string)
  | Failed (e : exn_class).

(** What the handler reads from outside while it processes one message:
    the clock on entry of [check_and_reset_user_count], the clock inside
    [time_until_reset], and the outcome of the i-th remote call. *)
Record world : Type := mkWorld {
  now_check : Z;
  now_wait : Z;
  api : nat -> outcome
}.

Definition call (r : request) (o : outcome) : M string :=
  emit (Called r) ;;;
  match o with
  | Responded text => ret text
  | Failed e => raise e
  end.

(** [try: body except C1 as e: h1 except C2 as e: h2 ...]: the first
    clause whose class the raised exception is an instance of runs. *)
Definition try_except (body : M unit)
    (handlers : list (exn_class * (exn_class -> M unit))) : M unit :=
  fun s =>
    match body s with
    | (Return a, s1, l1) => (Return a, s1, l1)
    | (Raise e, s1, l1) =>
        match find (fun h => issubclass e (fst h)) handlers with
        | Some h =>
            match snd h e s1 with
            | (r, s2, l2) => (r, s2, (l1 ++ l2)%list)
            end
        | None => (Raise e, s1, l1)
        end
    end.

(** [print(f"{line}: {e}")] then [await message.channel.send(reply)]. *)
Definition apologise (line reply : string) (e : exn_class) : M unit :=
  emit (Printed line e) ;;;
  emit (Sent reply).

(** [v >= limit] for an [int] limit. *)
Definition ge_limit (v : json) (limit : Z) : M bool :=
  match v with
  | JInt n => ret (n >=? limit)
  | JIso _ | JIsoAware _ | JStr _ => raise TypeError
  end.

(** [user_request_data[user_id][key] += 1] *)
Definition increment (user_id key : string) : M unit :=
  v <- getitem user_id key ;;
  match v with
  | JInt n => setitem user_id key (JInt (n + 1))
  | JIso _ | JIsoAware _ | JStr _ => raise TypeError
  end.

(** The loop over [message.attachments]; [i] numbers the remote calls. *)
Fixpoint ask_attachments (text : string) (w : world) (i : nat)
    (atts : list string) : M unit :=
  match atts with
  | [] => ret tt
  | image_url :: rest =>
      response <- call (ChatCompletion
                          (if decide (text = "") then "What's in this image?" else text)
                          (Some image_url))
                       (api w i) ;;
      emit (Sent (strip response)) ;;;
      ask_attachments text w (S i) rest
  end.

Definition ask_handlers : list (exn_class * (exn_class -> M unit)) :=
  [ (APIError,
     apologise "OpenAI API returned an API Error"
       "Sorry, there was an issue with the AI service. Please try again later.");
    (APIConnectionError,
     apologise "Failed to connect to OpenAI API"
       "Sorry, I couldn't connect to the AI service. Please check your connection and try again.");
    (RateLimitError,
     apologise "OpenAI API request exceeded rate limit"
       "Sorry, I'm receiving too many requests at once. Please try again in a moment.");
    (AuthenticationError,
     apologise "OpenAI API authentication error"
       "Sorry, it looks like I've run out of credits. Please check back later or contact support.");
    (Exception,
     apologise "An unexpected error occurred"
       "Sorry, something went wrong.") ].

Definition make_handlers : list (exn_class * (exn_class -> M unit)) :=
  [ (APIError,
     apologise "OpenAI API returned an API Error"
       "Sorry, there was an issue with the image generation service. Please try again later.");
    (APIConnectionError,
     apologise "Failed to connect to OpenAI API"
       "Sorry, I couldn't connect to the image generation service. Please check your connection and try again.");
    (RateLimitError,
     apologise "OpenAI API request exceeded rate limit"
       "Sorry, I'm receiving too many image requests at once. Please try again in a moment.");
    (AuthenticationError,
     apologise "OpenAI API authentication error"
       "Sorry, it looks like I've run out of credits. Please check back later or contact support.");
    (Exception,
     apologise "An unexpected error occurred"
       "Sorry, something went wrong.") ].

(** The two quota replies (lines 102 and 166). *)
Definition ask_quota_reply (wait_time : string) : string :=
  "Sorry, you've reached the maximum number of requests allowed for today. Please wait "
  ++ wait_time ++ " before trying again.".

Definition make_quota_reply (wait_time : string) : string :=
  "Sorry, you've reached the maximum number of image requests allowed for today. Please wait "
  ++ wait_time ++ " before trying again.".

(** Lines 110 to 140: the remote calls of an admitted [!ask]. *)
Definition ask_remote (msg : message) (w : world) : M unit :=
  match attachments msg with
  | _ :: _ => ask_attachments (content msg) w 0 (attachments msg)
  | [] =>
      response <- call (ChatCompletion (content msg) None) (api w 0%nat) ;;
      emit (Sent (strip response))
  end.

(** Lines 174 to 183: the remote call of an admitted [!make]. *)
Definition make_remote (msg : message) (w : world) : M unit :=
  let prompt := strip (slice_from (String.length "!make ") (content msg)) in
  image_url <- call (ImageGenerate prompt) (api w 0%nat) ;;
  emit (Sent ("Here is your generated image: " ++ image_url)).

(** The branch [if message.content.startswith("!ask")]. *)
Definition on_message_ask (user_id : string) (msg : message) (w : world) : M unit :=
  c <- getitem user_id "count" ;;
  full <- ge_limit c REQUEST_LIMIT ;;
  if full then
    wait_time <- time_until_reset user_id "last_reset" (now_wait w) ;;
    emit (Sent (ask_quota_reply wait_time))
  else
    try_except
      (increment user_id "count" ;;;
       save_user_request_data ;;;
       ask_remote msg w)
      ask_handlers.

(** The branch [elif message.content.startswith("!make")]. *)
Definition on_message_make (user_id : string) (msg : message) (w : world) : M unit :=
  c <- getitem user_id "image_count" ;;
  full <- ge_limit c IMAGE_REQUEST_LIMIT ;;
  if full then
    wait_time <- time_until_reset user_id "last_image_reset" (now_wait w) ;;
    emit (Sent (make_quota_reply wait_time))
  else
    try_except
      (increment user_id "image_count" ;;;
       save_user_request_data ;;;
       make_remote msg w)
      make_handlers.

(** Lines 98 to 203: the dispatch on the prefix of the text. *)
Definition on_message_command (user_id : string) (msg : message) (w : world) : M unit :=
  if startswith (content msg) "!ask" then on_message_ask user_id msg w
  else if startswith (content msg) "!make" then on_message_make user_id msg w
  else ret tt.

Definition on_message (msg : message) (w : world) : M unit :=
  if author_is_self msg then ret tt
  else
    let user_id := author_id msg in
    check_and_reset_user_count user_id (now_check w) ;;;
    on_message_command user_id msg w.

(** * Vocabulary of the statements *)

(** ** The effect of check_and_reset_user_count on one record *)

(** [if key not in r: r[key] = v] *)
Definition with_default (key : string) (v : json) (r : record) : record :=
  match r !! key with
  | Some _ => r
  | None => <[key := v]> r
  end.

(** The three defaults of lines 55 to 60, in their order. *)
Definition defaults (now : Z) (r : record) : record :=
  with_default "last_image_reset" (JIso now)
    (with_default "image_count" (JInt 0)
       (with_default "last_reset" (JIso now) r)).

Definition expired (now last : Z) : bool :=
  now - last >? timedelta_hours RESET_HOURS.

Definition reset_text (now : Z) (r : record) : record :=
  <["last_reset" := JIso now]> (<["count" := JInt 0]> r).

Definition reset_image (now : Z) (r : record) : record :=
  <["last_image_reset" := JIso now]> (<["image_count" := JInt 0]> r).

(** The record after the two window tests, for parsed timestamps. *)
Definition refreshed (now t1 t2 : Z) (r : record) : record :=
  let r' := if expired now t1 then reset_text now r else r in
  if expired now t2 then reset_image now r' else r'.

(** The naive datetime that [fromisoformat(r[key])] gives, or the
    exception on the way to [fromisoformat(r[key]) - now]: of the
    lookup, of the parsing, or of the subtraction for an offset-aware
    timestamp. *)
Definition timestamp (v : option json) : exn_class + Z :=
  match v with
  | Some (JIso t) => inr t
  | Some (JIsoAware _) => inl TypeError
  | Some (JStr _) => inl ValueError
  | Some (JInt _) => inl TypeError
  | None => inl KeyError
  end.

(** What [fromisoformat(r[key])] gives. *)
Definition parsed (v : option json) : exn_class + datetime :=
  match v with
  | Some (JIso t) => inr (Naive t)
  | Some (JIsoAware t) => inr (Aware t)
  | Some (JStr _) => inl ValueError
  | Some (JInt _) => inl TypeError
  | None => inl KeyError
  end.

(** What lines 62 to 71 make of a record that has its defaults: the
    record to save, or the exception together with the record left in
    memory.  Both timestamps are parsed first; the text window is
    tested and reset before the image timestamp is subtracted. *)
Definition check_outcome (now : Z) (r1 : record) : exn_class * record + record :=
  match parsed (r1 !! "last_reset"), parsed (r1 !! "last_image_reset") with
  | inl e, _ | inr _, inl e => inl (e, r1)
  | inr (Aware _), inr _ => inl (TypeError, r1)
  | inr (Naive t1), inr (Aware _) =>
      inl (TypeError, if expired now t1 then reset_text now r1 else r1)
  | inr (Naive t1), inr (Naive t2) => inr (refreshed now t1 t2 r1)
  end.

(** A record that [check_and_reset_user_count] need not complete. *)
Definition complete (r : record) (t1 t2 : Z) : Prop :=
  r !! "last_reset" = Some (JIso t1)
  /\ r !! "last_image_reset" = Some (JIso t2)
  /\ is_Some (r !! "image_count").

(** ** The branches of on_message *)

(** The outcome of the admission test on a record: the exception of
    the lookup or of the comparison, or the counter. *)
Definition counter (v : option json) : exn_class + Z :=
  match v with
  | Some (JInt n) => inr n
  | Some (JIso _) | Some (JIsoAware _) | Some (JStr _) => inl TypeError
  | None => inl KeyError
  end.

(** The string that [time_until_reset] builds from [time_remaining]. *)
Definition render_wait (time_remaining : Z) : string :=
  str_of_int (timedelta_seconds time_remaining / 3600) ++ "h"
  ++ str_of_int (timedelta_seconds time_remaining mod 3600 / 60) ++ "m".

(** The reply that the [except] clauses of a handler list select. *)
Definition selected (handlers : list (exn_class * (exn_class -> M unit)))
    (e : exn_class) : option (exn_class -> M unit) :=
  snd <$> find (fun h => issubclass e (fst h)) handlers.

(** With a last clause [except Exception] whose clauses only print and
    send, a [try] statement always completes, in the state its body
    ended in. *)
Definition catch_all (handlers : list (exn_class * (exn_class -> M unit))) : Prop :=
  forall e, exists line reply, selected handlers e = Some (apologise line reply).

(** ** Relations between the state before and after a run *)

(** Every run of [m] takes a state to an [R]-related one, however it
    ends. *)
Definition respects (R : state -> state -> Prop) {A} (m : M A) : Prop :=
  forall s, R s (state_of (m s)).

(** No key of the mapping disappears. *)
Definition grows (s s' : state) : Prop :=
  forall k, is_Some (user_request_data s !! k) -> is_Some (user_request_data s' !! k).

(** Only the record of [uid] may differ. *)
Definition only_touches (uid : string) (s s' : state) : Prop :=
  forall k, k <> uid -> user_request_data s' !! k = user_request_data s !! k.

(** ** Sequences of messages *)



(** The handler run on a sequence of messages, each with what it reads
    from outside.  The mapping is only read and written between two
    [await]s of one run, so the runs act on it one after the other; an
    exception that leaves the handler is logged by the client library
    and the next message is handled. *)
Fixpoint run (inputs : list (message * world)) (s : state) : state :=
  match inputs with
  | [] => s
  | (msg, w) :: rest => run rest (state_of (on_message msg w s))
  end.




(** ** Sample data for the closed statements *)

Definition sample_record (c ic : json) (t1 t2 : Z) : record :=
  <["count" := c]>
  (<["image_count" := ic]>
  (<["last_reset" := JIso t1]>
  (<["last_image_reset" := JIso t2]> ∅))).

Definition sample_state (uid : string) (r : record) : state :=
  mkState {[uid := r]} (Some {[uid := r]}).

(** ** Vocabulary of the further properties *)

(** The exceptions of the dictionary lookups, of [fromisoformat] and
    of the comparisons. *)
Definition builtin (e : exn_class) : Prop :=
  e = KeyError \/ e = ValueError \/ e = TypeError.

(** [datetime.max], the last microsecond of the year 9999, counted
    from [datetime.min]. *)
Definition datetime_max : Z := 315537897599999999.

(** No timestamp of the mapping is within 24 hours of [datetime.max]:
    [last_reset + timedelta(hours=RESET_HOURS)] of line 78 is a
    [datetime] for every stored timestamp. *)
Definition below_datetime_max (s : state) : Prop :=
  forall uid r key t,
    user_request_data s !! uid = Some r ->
    r !! key = Some (JIso t) ->
    t + timedelta_hours RESET_HOURS <= datetime_max.

(** Every event of every run of [m] satisfies [P]. *)
Definition emits (P : event -> Prop) {A} (m : M A) : Prop :=
  forall s, Forall P (events_of (m s)).

Definition is_call (e : event) : bool :=
  match e with
  | Called _ => true
  | _ => false
  end.

(** The number of remote calls in a trace. *)
Definition calls (l : list event) : nat := length (List.filter is_call l).





(** A record as the program itself writes them: both timestamps, both
    counters, each counter between 0 and its limit. *)
Definition well_formed (r : record) : Prop :=
  exists t1 t2 c ic,
    r !! "last_reset" = Some (JIso t1)
    /\ r !! "last_image_reset" = Some (JIso t2)
    /\ r !! "count" = Some (JInt c)
    /\ r !! "image_count" = Some (JInt ic)
    /\ 0 <= c <= REQUEST_LIMIT
    /\ 0 <= ic <= IMAGE_REQUEST_LIMIT.

Definition healthy (s : state) : Prop :=
  forall uid r, user_request_data s !! uid = Some r -> well_formed r.

(** The record of the author after the handler has run on a record
    with both timestamps [t1], [t2] and both counters [c], [ic], the
    clock of the check reading [now]. *)
Definition after_message (msg : message) (now t1 t2 c ic : Z) (r : record) : record :=
  let r1 := refreshed now t1 t2 r in
  let c1 := if expired now t1 then 0 else c in
  let ic1 := if expired now t2 then 0 else ic in
  if startswith (content msg) "!ask" then
    if c1 >=? REQUEST_LIMIT then r1 else <["count" := JInt (c1 + 1)]> r1
  else if startswith (content msg) "!make" then
    if ic1 >=? IMAGE_REQUEST_LIMIT then r1 else <["image_count" := JInt (ic1 + 1)]> r1
  else r1.

(** The handler run on a sequence of messages, with the outcome of
    each run. *)
Fixpoint run_results (inputs : list (message * world)) (s : state)
    : list (result unit) :=
  match inputs with
  | [] => []
  | (msg, w) :: rest =>
      result_of (on_message msg w s)
      :: run_results rest (state_of (on_message msg w s))
  end.

(** * Properties *)

(** ** Running the primitives *)

Section primitives.
Context (d : mapping) (f : option mapping) (uid : string) (r : record).

Lemma has_user_present :
  has_user uid (mkState (<[uid := r]> d) f)
  = (Return true, mkState (<[uid := r]> d) f, []).
Proof.
  unfold has_user; cbn [user_request_data].
  rewrite lookup_insert_eq, bool_decide_eq_true_2; eauto.
Qed.

Lemma get_user_present :
  get_user uid (mkState (<[uid := r]> d) f)
  = (Return r, mkState (<[uid := r]> d) f, []).
Proof.
  unfold get_user; cbn [user_request_data]. by rewrite lookup_insert_eq.
Qed.

Lemma has_key_present key :
  has_key uid key (mkState (<[uid := r]> d) f)
  = (Return (bool_decide (is_Some (r !! key))), mkState (<[uid := r]> d) f, []).
Proof. unfold has_key, bind. by rewrite get_user_present. Qed.

Lemma getitem_present key :
  getitem uid key (mkState (<[uid := r]> d) f)
  = (match r !! key with Some v => Return v | None => Raise KeyError end,
     mkState (<[uid := r]> d) f, []).
Proof.
  unfold getitem, bind. rewrite get_user_present. by destruct (r !! key).
Qed.

Lemma setitem_present key v :
  setitem uid key v (mkState (<[uid := r]> d) f)
  = (Return tt, mkState (<[uid := <[key := v]> r]> d) f, []).
Proof.
  unfold setitem, bind. rewrite get_user_present.
  unfold set_user; cbn [user_request_data request_count_file app].
  by rewrite insert_insert_eq.
Qed.
End primitives.

Lemma state_present (s : state) uid r :
  user_request_data s !! uid = Some r ->
  s = mkState (<[uid := r]> (user_request_data s)) (request_count_file s).
Proof. intros H. destruct s as [d f]; cbn in *. by rewrite insert_id. Qed.

(** ** The effect of check_and_reset_user_count on one record *)

Lemma bind_nil {A B} (m : M A) (k : A -> M B) s a s1 :
  m s = (Return a, s1, []) -> bind m k s = k a s1.
Proof. intros H. unfold bind. rewrite H. by destruct (k a s1) as [[? ?] ?]. Qed.

Lemma bind_raise {A B} (m : M A) (k : A -> M B) s e s1 l1 :
  m s = (Raise e, s1, l1) -> bind m k s = (Raise e, s1, l1).
Proof. intros H. unfold bind. by rewrite H. Qed.

Section steps.
Context {B : Type} (d : mapping) (f : option mapping) (uid : string).

Local Abbreviation st r := (mkState (<[uid := r]> d) f).

Lemma ensure_key_run key v (rest : M B) r :
  (b <- has_key uid key ;; when (negb b) (setitem uid key v) ;;; rest) (st r)
  = rest (st (with_default key v r)).
Proof.
  erewrite bind_nil by apply has_key_present.
  unfold with_default. destruct (r !! key) eqn:E; cbn [negb when].
  - rewrite bool_decide_eq_true_2 by eauto. by erewrite bind_nil.
  - rewrite bool_decide_eq_false_2 by (intros [? ?]; discriminate).
    by erewrite bind_nil by apply setitem_present.
Qed.

Lemma read_parsed_run key (rest : datetime -> M B) r :
  (v <- getitem uid key ;; t <- fromisoformat v ;; rest t) (st r)
  = match parsed (r !! key) with
    | inr t => rest t (st r)
    | inl e => (Raise e, st r, [])
    end.
Proof.
  destruct (r !! key) as [[n|t|t'|x]|] eqn:E; cbn [parsed].
  - erewrite bind_nil by (rewrite getitem_present, E; reflexivity).
    by erewrite bind_raise.
  - erewrite bind_nil by (rewrite getitem_present, E; reflexivity).
    by erewrite bind_nil.
  - erewrite bind_nil by (rewrite getitem_present, E; reflexivity).
    by erewrite bind_nil.
  - erewrite bind_nil by (rewrite getitem_present, E; reflexivity).
    by erewrite bind_raise.
  - by erewrite bind_raise by (rewrite getitem_present, E; reflexivity).
Qed.

Lemma since_run now (last : datetime) (rest : Z -> M B) (s : state) :
  (x <- datetime_sub (Naive now) last ;; rest x) s
  = match last with
    | Naive t => rest (now - t) s
    | Aware _ => (Raise TypeError, s, [])
    end.
Proof.
  destruct last; cbn [datetime_sub]; [by erewrite bind_nil | by erewrite bind_raise].
Qed.

Lemma reset_run (b : bool) k1 v1 k2 v2 (rest : M B) r :
  (when b (setitem uid k1 v1 ;;; setitem uid k2 v2) ;;; rest) (st r)
  = rest (st (if b then <[k2 := v2]> (<[k1 := v1]> r) else r)).
Proof.
  destruct b; cbn [when].
  - erewrite bind_nil; [reflexivity|].
    erewrite bind_nil by apply setitem_present. apply setitem_present.
  - by erewrite bind_nil.
Qed.
End steps.

Lemma check_and_reset_new (s : state) uid now :
  user_request_data s !! uid = None ->
  check_and_reset_user_count uid now s
  = let m := <[uid := new_user_data now]> (user_request_data s) in
    (Return tt, mkState m (Some m), [Saved m]).
Proof.
  intros H. unfold check_and_reset_user_count, bind at 1, has_user.
  rewrite H, bool_decide_eq_false_2 by (intros [? ?]; discriminate).
  reflexivity.
Qed.

Lemma check_and_reset_present d f uid now r :
  check_and_reset_user_count uid now (mkState (<[uid := r]> d) f)
  = match check_outcome now (defaults now r) with
    | inr r2 =>
        let m := <[uid := r2]> d in
        (Return tt, mkState m (Some m), [Saved m])
    | inl (e, r') => (Raise e, mkState (<[uid := r']> d) f, [])
    end.
Proof.
  unfold check_and_reset_user_count, check_outcome.
  erewrite bind_nil by apply has_user_present. cbn [negb].
  rewrite !ensure_key_run. fold (defaults now r).
  rewrite read_parsed_run.
  destruct (parsed (defaults now r !! "last_reset")) as [e|d1]; [done|].
  rewrite read_parsed_run.
  destruct (parsed (defaults now r !! "last_image_reset")) as [e|d2];
    [by destruct d1|].
  rewrite since_run. destruct d1 as [t1|]; [|done].
  rewrite reset_run, since_run. fold (reset_text now (defaults now r)).
  fold (expired now t1). destruct d2 as [t2|]; [|done].
  rewrite reset_run. reflexivity.
Qed.

Lemma check_outcome_naive now (r1 : record) t1 t2 :
  r1 !! "last_reset" = Some (JIso t1) ->
  r1 !! "last_image_reset" = Some (JIso t2) ->
  check_outcome now r1 = inr (refreshed now t1 t2 r1).
Proof. intros H1 H2. unfold check_outcome. by rewrite H1, H2. Qed.

Lemma check_outcome_inr now (r1 r2 : record) :
  check_outcome now r1 = inr r2 ->
  exists t1 t2,
    r1 !! "last_reset" = Some (JIso t1)
    /\ r1 !! "last_image_reset" = Some (JIso t2)
    /\ r2 = refreshed now t1 t2 r1.
Proof.
  unfold check_outcome.
  destruct (r1 !! "last_reset") as [[n1|t1|a1|x1]|];
    destruct (r1 !! "last_image_reset") as [[n2|t2|a2|x2]|];
    cbn [parsed]; intros [=]. eauto.
Qed.

(** A call that raises has left the record with its defaults, or, when
    the failure is the subtraction of an offset-aware image timestamp,
    with its defaults and the text window already tested and reset. *)
Lemma check_outcome_inl now (r1 : record) e r' :
  check_outcome now r1 = inl (e, r') ->
  (e = KeyError \/ e = ValueError \/ e = TypeError)
  /\ (r' = r1
      \/ exists t1 a2,
           r1 !! "last_reset" = Some (JIso t1)
           /\ r1 !! "last_image_reset" = Some (JIsoAware a2)
           /\ e = TypeError
           /\ r' = if expired now t1 then reset_text now r1 else r1).
Proof.
  unfold check_outcome.
  destruct (r1 !! "last_reset") as [[n1|t1|a1|x1]|];
    destruct (r1 !! "last_image_reset") as [[n2|t2|a2|x2]|];
    cbn [parsed]; intros [= <- <-]; split; eauto 10.
Qed.

(** ** Relations between the state before and after a run *)

Section preorder.
Context (R : state -> state -> Prop).
Context (R_refl : forall s, R s s).
Context (R_trans : forall s1 s2 s3, R s1 s2 -> R s2 s3 -> R s1 s3).

Lemma respects_ret {A} (a : A) : respects R (ret a).
Proof. intros s. apply R_refl. Qed.

Lemma respects_raise {A} e : respects R (@raise A e).
Proof. intros s. apply R_refl. Qed.

Lemma respects_emit e : respects R (emit e).
Proof. intros s. apply R_refl. Qed.

Lemma respects_bind {A B} (m : M A) (k : A -> M B) :
  respects R m -> (forall a, respects R (k a)) -> respects R (bind m k).
Proof.
  intros Hm Hk s. specialize (Hm s). unfold bind, state_of in *.
  destruct (m s) as [[[a|e] s1] l1]; cbn in *; [|done].
  specialize (Hk a s1). destruct (k a s1) as [[r2 s2] l2]; cbn in *. eauto.
Qed.

Lemma respects_when b (m : M unit) : respects R m -> respects R (when b m).
Proof. destruct b; cbn; [done|]. intros _. apply respects_ret. Qed.

Lemma respects_try_except body handlers :
  respects R body ->
  Forall (fun h => forall e, respects R (snd h e)) handlers ->
  respects R (try_except body handlers).
Proof.
  intros Hb Hh s. specialize (Hb s). unfold try_except, state_of in *.
  destruct (body s) as [[[a|e] s1] l1]; cbn in *; [done|].
  destruct (find _ handlers) as [h|] eqn:E; [|done].
  apply find_some in E as [Hin _]. apply list_elem_of_In in Hin.
  rewrite Forall_forall in Hh. specialize (Hh h Hin e s1).
  destruct (snd h e s1) as [[r2 s2] l2]; cbn in *. eauto.
Qed.

Lemma respects_call r o : respects R (call r o).
Proof.
  apply respects_bind; [apply respects_emit|]. intros _.
  destruct o; [apply respects_ret | apply respects_raise].
Qed.

Lemma respects_apologise line reply e : respects R (apologise line reply e).
Proof. apply respects_bind; [|intros _]; apply respects_emit. Qed.

Lemma respects_fromisoformat v : respects R (fromisoformat v).
Proof. destruct v; first [apply respects_raise | apply respects_ret]. Qed.

Lemma respects_datetime_sub a b : respects R (datetime_sub a b).
Proof. destruct a, b; first [apply respects_raise | apply respects_ret]. Qed.

Lemma respects_ge_limit v limit : respects R (ge_limit v limit).
Proof. destruct v; [apply respects_ret | apply respects_raise ..]. Qed.

Lemma respects_get_user uid : respects R (get_user uid).
Proof. intros s. unfold get_user, state_of. destruct (_ !! _); apply R_refl. Qed.

Lemma respects_has_user uid : respects R (has_user uid).
Proof. intros s. apply R_refl. Qed.

Lemma respects_has_key uid key : respects R (has_key uid key).
Proof.
  apply respects_bind; [apply respects_get_user|]. intros; apply respects_ret.
Qed.

Lemma respects_getitem uid key : respects R (getitem uid key).
Proof.
  apply respects_bind; [apply respects_get_user|]. intros r.
  destruct (r !! key); [apply respects_ret | apply respects_raise].
Qed.

Lemma respects_ask_attachments text w i atts :
  respects R (ask_attachments text w i atts).
Proof.
  revert i. induction atts as [|u atts IH]; intros i; cbn [ask_attachments].
  - apply respects_ret.
  - apply respects_bind; [apply respects_call|]. intros response.
    apply respects_bind; [apply respects_emit|]. intros _. apply IH.
Qed.

Lemma respects_ask_remote msg w : respects R (ask_remote msg w).
Proof.
  unfold ask_remote.
  destruct (attachments msg); [|apply respects_ask_attachments].
  apply respects_bind; [apply respects_call|]. intros. apply respects_emit.
Qed.

Lemma respects_make_remote msg w : respects R (make_remote msg w).
Proof.
  apply respects_bind; [apply respects_call|]. intros. apply respects_emit.
Qed.

Lemma respects_handlers :
  Forall (fun h : exn_class * (exn_class -> M unit) =>
            forall e, respects R (snd h e)) ask_handlers
  /\ Forall (fun h : exn_class * (exn_class -> M unit) =>
            forall e, respects R (snd h e)) make_handlers.
Proof.
  split; repeat constructor; intros e; apply respects_apologise.
Qed.

(** The two primitives that write are left to the instance. *)
Context (uid : string).
Context (R_set_user : forall r, respects R (set_user uid r)).
Context (R_save : respects R save_user_request_data).

Lemma respects_setitem key v : respects R (setitem uid key v).
Proof. apply respects_bind; [apply respects_get_user | intros; apply R_set_user]. Qed.

Lemma respects_increment key : respects R (increment uid key).
Proof.
  apply respects_bind; [apply respects_getitem|]. intros [n|t|a|x];
    [apply respects_setitem | apply respects_raise ..].
Qed.

Lemma respects_time_until_reset reset_type now :
  respects R (time_until_reset uid reset_type now).
Proof.
  apply respects_bind; [apply respects_getitem|]. intros v.
  apply respects_bind; [apply respects_fromisoformat|]. intros t.
  apply respects_bind; [apply respects_datetime_sub|]. intros x.
  apply respects_ret.
Qed.

Lemma respects_check_and_reset now :
  respects R (check_and_reset_user_count uid now).
Proof.
  unfold check_and_reset_user_count.
  apply respects_bind; [apply respects_has_user|]. intros [|]; cbn [negb].
  - do 3 (apply respects_bind; [apply respects_has_key|]; intros ?;
          apply respects_bind;
          [apply respects_when, respects_setitem|]; intros _).
    apply respects_bind; [apply respects_getitem|]. intros v1.
    apply respects_bind; [apply respects_fromisoformat|]. intros t1.
    apply respects_bind; [apply respects_getitem|]. intros v2.
    apply respects_bind; [apply respects_fromisoformat|]. intros t2.
    do 2 (apply respects_bind; [apply respects_datetime_sub|]; intros ?;
          apply respects_bind;
          [apply respects_when, respects_bind;
           [|intros _]; apply respects_setitem|]; intros _).
    apply R_save.
  - apply respects_bind; [apply R_set_user | intros _; apply R_save].
Qed.

Lemma respects_on_message_ask msg w : respects R (on_message_ask uid msg w).
Proof.
  unfold on_message_ask.
  apply respects_bind; [apply respects_getitem|]. intros c.
  apply respects_bind; [apply respects_ge_limit|]. intros [|].
  - apply respects_bind; [apply respects_time_until_reset|]. intros.
    apply respects_emit.
  - apply respects_try_except; [|apply respects_handlers].
    apply respects_bind; [apply respects_increment|]. intros _.
    apply respects_bind; [apply R_save|]. intros _.
    apply respects_ask_remote.
Qed.

Lemma respects_on_message_make msg w : respects R (on_message_make uid msg w).
Proof.
  unfold on_message_make.
  apply respects_bind; [apply respects_getitem|]. intros c.
  apply respects_bind; [apply respects_ge_limit|]. intros [|].
  - apply respects_bind; [apply respects_time_until_reset|]. intros.
    apply respects_emit.
  - apply respects_try_except; [|apply respects_handlers].
    apply respects_bind; [apply respects_increment|]. intros _.
    apply respects_bind; [apply R_save|]. intros _.
    apply respects_make_remote.
Qed.

Lemma respects_on_message_command msg w :
  respects R (on_message_command uid msg w).
Proof.
  unfold on_message_command.
  destruct (startswith _ _); [apply respects_on_message_ask|].
  destruct (startswith _ _); [apply respects_on_message_make|].
  apply respects_ret.
Qed.
End preorder.

Lemma respects_on_message (R : state -> state -> Prop) msg w :
  (forall s, R s s) ->
  (forall s1 s2 s3, R s1 s2 -> R s2 s3 -> R s1 s3) ->
  (forall r, respects R (set_user (author_id msg) r)) ->
  respects R save_user_request_data ->
  respects R (on_message msg w).
Proof.
  intros Hrefl Htrans Hset Hsave. unfold on_message.
  destruct (author_is_self msg); [by apply respects_ret|].
  apply respects_bind; [done| |intros _].
  - by apply respects_check_and_reset.
  - by apply respects_on_message_command.
Qed.

(** *** Three instances *)

Lemma grows_refl s : grows s s.
Proof. by intros k. Qed.

Lemma grows_trans s1 s2 s3 : grows s1 s2 -> grows s2 s3 -> grows s1 s3.
Proof. intros H1 H2 k Hk. eauto. Qed.

Lemma grows_set_user uid r : respects grows (set_user uid r).
Proof.
  intros s k Hk. unfold set_user, state_of; cbn.
  destruct (decide (uid = k)) as [->|Hne].
  - rewrite lookup_insert_eq. eauto.
  - by rewrite lookup_insert_ne.
Qed.

Lemma grows_save : respects grows save_user_request_data.
Proof. by intros s k. Qed.

Lemma only_touches_refl uid s : only_touches uid s s.
Proof. by intros k. Qed.

Lemma only_touches_trans uid s1 s2 s3 :
  only_touches uid s1 s2 -> only_touches uid s2 s3 -> only_touches uid s1 s3.
Proof. intros H1 H2 k Hk. rewrite H2, H1; done. Qed.

Lemma only_touches_set_user uid r : respects (only_touches uid) (set_user uid r).
Proof.
  intros s k Hk. unfold set_user, state_of; cbn. by rewrite lookup_insert_ne.
Qed.

Lemma only_touches_save uid : respects (only_touches uid) save_user_request_data.
Proof. by intros s k. Qed.

Lemma eq_trans_state (s1 s2 s3 : state) : s1 = s2 -> s2 = s3 -> s1 = s3.
Proof. congruence. Qed.

(** The remote calls and the handlers leave the state alone. *)
Lemma ask_remote_state msg w s : state_of (ask_remote msg w s) = s.
Proof. symmetry. by apply (respects_ask_remote eq (@eq_refl state) eq_trans_state). Qed.

Lemma make_remote_state msg w s : state_of (make_remote msg w s) = s.
Proof. symmetry. by apply (respects_make_remote eq (@eq_refl state) eq_trans_state). Qed.

(** ** Running the handlers *)

Lemma issubclass_Exception e : issubclass e Exception = true.
Proof. by destruct e. Qed.

Lemma ask_handlers_catch_all : catch_all ask_handlers.
Proof. intros e. unfold selected. destruct e; cbn; eauto. Qed.

Lemma make_handlers_catch_all : catch_all make_handlers.
Proof. intros e. unfold selected. destruct e; cbn; eauto. Qed.

Lemma try_except_catch_all body handlers s :
  catch_all handlers ->
  result_of (try_except body handlers s) = Return tt
  /\ state_of (try_except body handlers s) = state_of (body s)
  /\ exists l, events_of (try_except body handlers s) = (events_of (body s) ++ l)%list.
Proof.
  intros Hc. unfold try_except, result_of, state_of, events_of.
  destruct (body s) as [[[[]|e] s1] l1]; cbn.
  - repeat split. exists []. by rewrite app_nil_r.
  - destruct (Hc e) as (line & reply & Hsel). unfold selected in Hsel.
    destruct (find _ handlers) as [h|]; [|done]. cbn in Hsel.
    injection Hsel as ->. cbn. eauto.
Qed.

(** A [try] whose body first increments and saves. *)
Lemma try_increment_run d f uid r key n (remote : M unit) handlers :
  r !! key = Some (JInt n) ->
  (forall s, state_of (remote s) = s) ->
  catch_all handlers ->
  let m := <[uid := <[key := JInt (n + 1)]> r]> d in
  try_except (increment uid key ;;; save_user_request_data ;;; remote) handlers
    (mkState (<[uid := r]> d) f)
  = (Return tt, mkState m (Some m),
     Saved m :: events_of (try_except remote handlers (mkState m (Some m)))).
Proof.
  intros Hr Hst Hc m.
  assert (Hbody : (increment uid key ;;; save_user_request_data ;;; remote)
                    (mkState (<[uid := r]> d) f)
                  = (result_of (remote (mkState m (Some m))), mkState m (Some m),
                     Saved m :: events_of (remote (mkState m (Some m))))).
  { unfold increment.
    erewrite bind_nil; cycle 1.
    { erewrite bind_nil by (rewrite getitem_present, Hr; reflexivity).
      apply setitem_present. }
    unfold bind, save_user_request_data; cbn [user_request_data request_count_file].
    fold m. specialize (Hst (mkState m (Some m))).
    unfold state_of, result_of, events_of in *.
    destruct (remote _) as [[res s'] l]; cbn in *. by subst s'. }
  specialize (Hst (mkState m (Some m))).
  unfold try_except. rewrite Hbody.
  unfold result_of, state_of, events_of in *.
  destruct (remote (mkState m (Some m))) as [[[[]|e] s1] l1];
    cbn [fst snd] in *; subst s1; [done|].
  destruct (Hc e) as (line & reply & Hsel). unfold selected in Hsel.
  destruct (find _ handlers) as [h|]; [|done].
  cbn [fmap option_fmap option_map] in Hsel. injection Hsel as ->.
  reflexivity.
Qed.

(** ** Running time_until_reset and the two branches *)

Lemma time_until_reset_run d f uid r reset_type now :
  time_until_reset uid reset_type now (mkState (<[uid := r]> d) f)
  = match timestamp (r !! reset_type) with
    | inr last =>
        (Return (render_wait (last + timedelta_hours RESET_HOURS - now)),
         mkState (<[uid := r]> d) f, [])
    | inl e => (Raise e, mkState (<[uid := r]> d) f, [])
    end.
Proof.
  unfold time_until_reset. rewrite read_parsed_run.
  by destruct (r !! reset_type) as [[n|t|a|x]|]; cbn [parsed timestamp].
Qed.

Section branches.
Context (d : mapping) (f : option mapping) (uid : string) (r : record).
Context (msg : message) (w : world).

Local Abbreviation st := (mkState (<[uid := r]> d) f).

Lemma on_message_ask_run :
  on_message_ask uid msg w st
  = match counter (r !! "count") with
    | inl e => (Raise e, st, [])
    | inr n =>
        if n >=? REQUEST_LIMIT then
          match timestamp (r !! "last_reset") with
          | inr last =>
              (Return tt, st,
               [Sent (ask_quota_reply
                        (render_wait (last + timedelta_hours RESET_HOURS - now_wait w)))])
          | inl e => (Raise e, st, [])
          end
        else
          let m := <[uid := <["count" := JInt (n + 1)]> r]> d in
          (Return tt, mkState m (Some m),
           Saved m :: events_of (try_except (ask_remote msg w) ask_handlers
                                   (mkState m (Some m))))
    end.
Proof.
  unfold on_message_ask.
  destruct (r !! "count") as [[n|t|a|x]|] eqn:E; cbn [counter].
  - erewrite bind_nil by (rewrite getitem_present, E; reflexivity).
    erewrite bind_nil by reflexivity.
    destruct (n >=? REQUEST_LIMIT).
    + unfold bind. rewrite time_until_reset_run.
      by destruct (timestamp (r !! "last_reset")).
    + apply try_increment_run;
        [done | apply ask_remote_state | apply ask_handlers_catch_all].
  - erewrite bind_nil by (rewrite getitem_present, E; reflexivity).
    by erewrite bind_raise.
  - erewrite bind_nil by (rewrite getitem_present, E; reflexivity).
    by erewrite bind_raise.
  - erewrite bind_nil by (rewrite getitem_present, E; reflexivity).
    by erewrite bind_raise.
  - by erewrite bind_raise by (rewrite getitem_present, E; reflexivity).
Qed.

Lemma on_message_make_run :
  on_message_make uid msg w st
  = match counter (r !! "image_count") with
    | inl e => (Raise e, st, [])
    | inr n =>
        if n >=? IMAGE_REQUEST_LIMIT then
          match timestamp (r !! "last_image_reset") with
          | inr last =>
              (Return tt, st,
               [Sent (make_quota_reply
                        (render_wait (last + timedelta_hours RESET_HOURS - now_wait w)))])
          | inl e => (Raise e, st, [])
          end
        else
          let m := <[uid := <["image_count" := JInt (n + 1)]> r]> d in
          (Return tt, mkState m (Some m),
           Saved m :: events_of (try_except (make_remote msg w) make_handlers
                                   (mkState m (Some m))))
    end.
Proof.
  unfold on_message_make.
  destruct (r !! "image_count") as [[n|t|a|x]|] eqn:E; cbn [counter].
  - erewrite bind_nil by (rewrite getitem_present, E; reflexivity).
    erewrite bind_nil by reflexivity.
    destruct (n >=? IMAGE_REQUEST_LIMIT).
    + unfold bind. rewrite time_until_reset_run.
      by destruct (timestamp (r !! "last_image_reset")).
    + apply try_increment_run;
        [done | apply make_remote_state | apply make_handlers_catch_all].
  - erewrite bind_nil by (rewrite getitem_present, E; reflexivity).
    by erewrite bind_raise.
  - erewrite bind_nil by (rewrite getitem_present, E; reflexivity).
    by erewrite bind_raise.
  - erewrite bind_nil by (rewrite getitem_present, E; reflexivity).
    by erewrite bind_raise.
  - by erewrite bind_raise by (rewrite getitem_present, E; reflexivity).
Qed.
End branches.

(** ** Facts about the defaults and the resets *)

Lemma field_present d f uid r key :
  field (mkState (<[uid := r]> d) f) uid key = r !! key.
Proof. unfold field; cbn. by rewrite lookup_insert_eq. Qed.

Lemma lookup_with_default key v (r : record) k :
  with_default key v r !! k
  = if decide (key = k) then Some (default v (r !! key)) else r !! k.
Proof.
  unfold with_default. destruct (r !! key) eqn:E; case_decide; subst; cbn.
  - done.
  - done.
  - by rewrite lookup_insert_eq.
  - by rewrite lookup_insert_ne.
Qed.

Lemma with_default_present key v (r : record) :
  is_Some (r !! key) -> with_default key v r = r.
Proof. intros [x Hx]. unfold with_default. by rewrite Hx. Qed.

Lemma defaults_present now (r : record) :
  is_Some (r !! "last_reset") -> is_Some (r !! "image_count") ->
  is_Some (r !! "last_image_reset") -> defaults now r = r.
Proof.
  intros H1 H2 H3. unfold defaults.
  by rewrite (with_default_present "last_reset"), (with_default_present "image_count"),
    (with_default_present "last_image_reset").
Qed.

Lemma lookup_defaults now (r : record) :
  defaults now r !! "last_reset" = Some (default (JIso now) (r !! "last_reset"))
  /\ defaults now r !! "image_count" = Some (default (JInt 0) (r !! "image_count"))
  /\ defaults now r !! "last_image_reset"
     = Some (default (JIso now) (r !! "last_image_reset"))
  /\ defaults now r !! "count" = r !! "count".
Proof.
  unfold defaults. rewrite !lookup_with_default.
  repeat case_decide; try discriminate; try congruence. done.
Qed.

Lemma expired_spec now last :
  expired now last = true <-> timedelta_hours RESET_HOURS < now - last.
Proof. unfold expired. rewrite Z.gtb_ltb. apply Z.ltb_lt. Qed.

Lemma expired_false now last :
  expired now last = false <-> now - last <= timedelta_hours RESET_HOURS.
Proof. unfold expired. rewrite Z.gtb_ltb. apply Z.ltb_ge. Qed.

(** The four quota fields of a refreshed record. *)
Lemma lookup_refreshed now t1 t2 (r : record) :
  refreshed now t1 t2 r !! "count"
  = (if expired now t1 then Some (JInt 0) else r !! "count")
  /\ refreshed now t1 t2 r !! "last_reset"
     = (if expired now t1 then Some (JIso now) else r !! "last_reset")
  /\ refreshed now t1 t2 r !! "image_count"
     = (if expired now t2 then Some (JInt 0) else r !! "image_count")
  /\ refreshed now t1 t2 r !! "last_image_reset"
     = (if expired now t2 then Some (JIso now) else r !! "last_image_reset").
Proof.
  unfold refreshed, reset_text, reset_image.
  destruct (expired now t1), (expired now t2); by simplify_map_eq.
Qed.

Lemma lookup_refreshed_other now t1 t2 (r : record) k :
  k <> "count" -> k <> "last_reset" -> k <> "image_count" ->
  k <> "last_image_reset" -> refreshed now t1 t2 r !! k = r !! k.
Proof.
  intros. unfold refreshed, reset_text, reset_image.
  destruct (expired now t1), (expired now t2); by simplify_map_eq.
Qed.

(** Turn a hypothesis on [now - last] into the value of the window test. *)
Ltac window_case :=
  match goal with
  | H : timedelta_hours RESET_HOURS < _ - _ |- _ =>
      apply expired_spec in H; rewrite H
  | H : _ - _ <= timedelta_hours RESET_HOURS |- _ =>
      apply expired_false in H; rewrite H
  end.

Lemma check_and_reset_complete s uid now r t1 t2 :
  user_request_data s !! uid = Some r ->
  complete r t1 t2 ->
  check_and_reset_user_count uid now s
  = let m := <[uid := refreshed now t1 t2 r]> (user_request_data s) in
    (Return tt, mkState m (Some m), [Saved m]).
Proof.
  intros Hs (H1 & H2 & H3).
  rewrite (state_present s uid r Hs) at 1. rewrite check_and_reset_present.
  rewrite defaults_present by (rewrite ?H1, ?H2; eauto).
  by rewrite (check_outcome_naive now r t1 t2 H1 H2).
Qed.

(** ** Sample data for the closed statements *)

Lemma sample_record_complete c ic t1 t2 : complete (sample_record c ic t1 t2) t1 t2.
Proof. repeat split; [reflexivity .. | by exists ic]. Qed.

(** * The reset windows *)

(** C2, as amended: for a user whose record carries both timestamps,
    [check_and_reset_user_count] returns, and for each capability on
    its own it zeroes the counter and moves the reset timestamp to
    [now] when [now - last_reset] is strictly more than 24 hours, and
    leaves both as they were when [now - last_reset] is at most 24
    hours, the instant [last_reset + 24h] included. *)
Theorem reset_exactly_when_window_exceeded s uid now r t1 t2 :
  user_request_data s !! uid = Some r ->
  complete r t1 t2 ->
  let s' := state_of (check_and_reset_user_count uid now s) in
  result_of (check_and_reset_user_count uid now s) = Return tt
  /\ (timedelta_hours RESET_HOURS < now - t1 ->
      field s' uid "count" = Some (JInt 0)
      /\ field s' uid "last_reset" = Some (JIso now))
  /\ (now - t1 <= timedelta_hours RESET_HOURS ->
      field s' uid "count" = r !! "count"
      /\ field s' uid "last_reset" = Some (JIso t1))
  /\ (timedelta_hours RESET_HOURS < now - t2 ->
      field s' uid "image_count" = Some (JInt 0)
      /\ field s' uid "last_image_reset" = Some (JIso now))
  /\ (now - t2 <= timedelta_hours RESET_HOURS ->
      field s' uid "image_count" = r !! "image_count"
      /\ field s' uid "last_image_reset" = Some (JIso t2)).
Proof.
  intros Hs Hc. rewrite (check_and_reset_complete s uid now r t1 t2 Hs Hc).
  cbn zeta. unfold state_of, result_of; cbn [fst snd].
  rewrite !field_present.
  destruct (lookup_refreshed now t1 t2 r) as (-> & -> & -> & ->).
  destruct Hc as (H1 & H2 & _). rewrite H1, H2.
  split; [done|].
  repeat split; by window_case.
Qed.

Lemma reset_exactly_when_window_exceeded_witness :
  let s := sample_state "7" (sample_record (JInt 9) (JInt 3) 0 50) in
  field (state_of (check_and_reset_user_count "7" 86400000001 s)) "7" "count"
  = Some (JInt 0)
  /\ field (state_of (check_and_reset_user_count "7" 86400000001 s)) "7" "image_count"
     = Some (JInt 3).
Proof.
  intros s.
  pose proof (reset_exactly_when_window_exceeded s "7" 86400000001
                (sample_record (JInt 9) (JInt 3) 0 50) 0 50 eq_refl
                (sample_record_complete _ _ _ _)) as (_ & Ha & _ & _ & Hb).
  split.
  - apply Ha. unfold timedelta_hours, RESET_HOURS. lia.
  - apply Hb. unfold timedelta_hours, RESET_HOURS. lia.
Defined.

(** C2, the claim as worded fails at the instant [last_reset + 24h]:
    the call made exactly 24 hours after the last reset resets
    nothing. *)
Lemma no_reset_at_window_end :
  let s := sample_state "7" (sample_record (JInt 9) (JInt 3) 0 0) in
  let now := 0 + timedelta_hours RESET_HOURS in
  let s' := state_of (check_and_reset_user_count "7" now s) in
  field s' "7" "count" = Some (JInt 9)
  /\ field s' "7" "last_reset" = Some (JIso 0)
  /\ ~ (field s' "7" "count" = Some (JInt 0)
        /\ field s' "7" "last_reset" = Some (JIso now)).
Proof.
  cbv zeta. repeat split; [vm_compute; reflexivity ..|].
  intros [H _]. vm_compute in H. discriminate.
Qed.

(** C3: for a user whose record carries both timestamps, a window that
    has not run out keeps its counter and its timestamp whatever
    happens to the other window; when only the text window has run out
    the record differs from the old one in [count] and [last_reset]
    alone, when only the image window has run out in [image_count] and
    [last_image_reset] alone; the records of the other users stay. *)
Theorem windows_reset_independently s uid now r t1 t2 :
  user_request_data s !! uid = Some r ->
  complete r t1 t2 ->
  let s' := state_of (check_and_reset_user_count uid now s) in
  (now - t2 <= timedelta_hours RESET_HOURS ->
   field s' uid "image_count" = r !! "image_count"
   /\ field s' uid "last_image_reset" = r !! "last_image_reset")
  /\ (now - t1 <= timedelta_hours RESET_HOURS ->
      field s' uid "count" = r !! "count"
      /\ field s' uid "last_reset" = r !! "last_reset")
  /\ (timedelta_hours RESET_HOURS < now - t1 ->
      now - t2 <= timedelta_hours RESET_HOURS ->
      user_request_data s' !! uid
      = Some (<["last_reset" := JIso now]> (<["count" := JInt 0]> r)))
  /\ (timedelta_hours RESET_HOURS < now - t2 ->
      now - t1 <= timedelta_hours RESET_HOURS ->
      user_request_data s' !! uid
      = Some (<["last_image_reset" := JIso now]> (<["image_count" := JInt 0]> r)))
  /\ (forall k, k <> uid -> user_request_data s' !! k = user_request_data s !! k).
Proof.
  intros Hs Hc. rewrite (check_and_reset_complete s uid now r t1 t2 Hs Hc).
  cbn zeta. unfold state_of; cbn [fst snd user_request_data].
  rewrite !field_present.
  destruct (lookup_refreshed now t1 t2 r) as (-> & -> & -> & ->).
  repeat split; try by window_case.
  - intros Ht Hi. apply expired_spec in Ht. apply expired_false in Hi.
    rewrite lookup_insert_eq. unfold refreshed. by rewrite Ht, Hi.
  - intros Hi Ht. apply expired_spec in Hi. apply expired_false in Ht.
    rewrite lookup_insert_eq. unfold refreshed. by rewrite Ht, Hi.
  - intros k Hk. by rewrite lookup_insert_ne.
Qed.

Lemma windows_reset_independently_witness :
  let r := sample_record (JInt 9) (JInt 3) 0 50 in
  let s := sample_state "7" r in
  user_request_data (state_of (check_and_reset_user_count "7" 86400000001 s)) !! "7"
  = Some (<["last_reset" := JIso 86400000001]> (<["count" := JInt 0]> r)).
Proof.
  intros r s.
  pose proof (windows_reset_independently s "7" 86400000001 r 0 50 eq_refl
                (sample_record_complete _ _ _ _)) as (_ & _ & H & _).
  apply H; unfold timedelta_hours, RESET_HOURS; lia.
Defined.

(** * Lazy creation, no deletion, legacy records *)

(** No run of the handler or of the two helpers removes a user. *)
Lemma on_message_grows msg w s : grows s (state_of (on_message msg w s)).
Proof.
  apply respects_on_message;
    [apply grows_refl | apply grows_trans | intros; apply grows_set_user
    | apply grows_save].
Qed.

Lemma check_and_reset_grows uid now s :
  grows s (state_of (check_and_reset_user_count uid now s)).
Proof.
  apply respects_check_and_reset;
    [apply grows_refl | apply grows_trans | intros; apply grows_set_user
    | apply grows_save].
Qed.

Lemma time_until_reset_grows uid reset_type now s :
  grows s (state_of (time_until_reset uid reset_type now s)).
Proof. apply respects_time_until_reset; [apply grows_refl | apply grows_trans]. Qed.

(** A message touches the record of its author only. *)
Lemma on_message_only_touches msg w s :
  only_touches (author_id msg) s (state_of (on_message msg w s)).
Proof.
  apply respects_on_message;
    [apply only_touches_refl | apply only_touches_trans
    | intros; apply only_touches_set_user | apply only_touches_save].
Qed.

(** C9: the call of [check_and_reset_user_count] for a user who is not
    in the mapping, the first thing [on_message] does with a user,
    returns and leaves for that user a record with both counters 0 and
    both reset timestamps equal to the [now] of that call; and neither
    [on_message] nor [check_and_reset_user_count] nor
    [time_until_reset] ever removes a user from the mapping. *)
Theorem lazy_creation_and_no_deletion s uid now :
  (user_request_data s !! uid = None ->
   let s' := state_of (check_and_reset_user_count uid now s) in
   result_of (check_and_reset_user_count uid now s) = Return tt
   /\ user_request_data s' !! uid = Some (new_user_data now)
   /\ field s' uid "count" = Some (JInt 0)
   /\ field s' uid "image_count" = Some (JInt 0)
   /\ field s' uid "last_reset" = Some (JIso now)
   /\ field s' uid "last_image_reset" = Some (JIso now))
  /\ (forall k, is_Some (user_request_data s !! k) ->
        (is_Some (user_request_data
                    (state_of (check_and_reset_user_count uid now s)) !! k))
        /\ (forall msg w,
              is_Some (user_request_data (state_of (on_message msg w s)) !! k))
        /\ (forall reset_type,
              is_Some (user_request_data
                         (state_of (time_until_reset uid reset_type now s)) !! k))).
Proof.
  split.
  - intros Hnew. rewrite (check_and_reset_new s uid now Hnew).
    cbn zeta. unfold state_of, result_of; cbn [fst snd user_request_data].
    rewrite !field_present, lookup_insert_eq. done.
  - intros k Hk. repeat split; intros.
    + by apply check_and_reset_grows.
    + by apply on_message_grows.
    + by apply time_until_reset_grows.
Qed.

Lemma lazy_creation_and_no_deletion_witness :
  let s := sample_state "7" (sample_record (JInt 9) (JInt 3) 0 50) in
  user_request_data (state_of (check_and_reset_user_count "8" 1234 s)) !! "8"
  = Some (new_user_data 1234)
  /\ is_Some (user_request_data
                (state_of (on_message (mkMessage false "8" "!ask hello" [])
                             (mkWorld 1234 1234 (fun _ => Responded "hi")) s)) !! "7").
Proof.
  intros s.
  destruct (lazy_creation_and_no_deletion s "8" 1234) as [Hnew Hkeep].
  split.
  - apply Hnew. reflexivity.
  - apply (Hkeep "7"). eexists. reflexivity.
Defined.

(** C10, as amended: when [check_and_reset_user_count] returns for a
    user who was in the mapping, the record has ['last_reset'],
    ['image_count'] and ['last_image_reset'], and it has ['count']
    exactly when it had ['count'] before or the text window ran out in
    this call; in particular a record that had ['count'] has all four
    fields. *)
Theorem legacy_fields_completed s uid now r :
  user_request_data s !! uid = Some r ->
  result_of (check_and_reset_user_count uid now s) = Return tt ->
  let s' := state_of (check_and_reset_user_count uid now s) in
  is_Some (field s' uid "last_reset")
  /\ is_Some (field s' uid "image_count")
  /\ is_Some (field s' uid "last_image_reset")
  /\ (is_Some (field s' uid "count") <->
      is_Some (r !! "count")
      \/ exists t, r !! "last_reset" = Some (JIso t)
                   /\ timedelta_hours RESET_HOURS < now - t).
Proof.
  intros Hs.
  pose proof (check_and_reset_present (user_request_data s)
                (request_count_file s) uid now r) as Hrun.
  rewrite <- (state_present s uid r Hs) in Hrun. rewrite Hrun. clear Hrun.
  destruct (lookup_defaults now r) as (D1 & D2 & D3 & D4).
  destruct (check_outcome now (defaults now r)) as [[e r']|r2] eqn:Eo;
    [intros H; discriminate H|].
  apply check_outcome_inr in Eo as (t1 & t2 & L1 & L2 & ->).
  assert (E1 : default (JIso now) (r !! "last_reset") = JIso t1) by congruence.
  assert (E2 : default (JIso now) (r !! "last_image_reset") = JIso t2)
    by congruence.
  rewrite E1 in D1. rewrite E2 in D3.
  intros _. cbn zeta. unfold state_of; cbn [fst snd]. rewrite !field_present.
  destruct (lookup_refreshed now t1 t2 (defaults now r)) as (-> & -> & -> & ->).
  rewrite D1, D2, D3, D4.
  split; [destruct (expired now t1); eauto|].
  split; [destruct (expired now t2); eauto|].
  split; [destruct (expired now t2); eauto|].
  split.
  - destruct (expired now t1) eqn:Ex; [|by left].
    intros _. right. apply expired_spec in Ex.
    destruct (r !! "last_reset") as [v|]; cbn in E1.
    + subst v. eauto.
    + injection E1 as <-. unfold timedelta_hours, RESET_HOURS in Ex. lia.
  - intros [Hc | (t & Ht & Hlt)].
    + destruct (expired now t1); eauto.
    + rewrite Ht in E1. cbn in E1. injection E1 as <-.
      apply expired_spec in Hlt. rewrite Hlt. eauto.
Qed.

Lemma legacy_fields_completed_witness :
  let r : record := <["count" := JInt 4]> ∅ in
  let s := sample_state "7" r in
  let s' := state_of (check_and_reset_user_count "7" 1234 s) in
  is_Some (field s' "7" "last_reset")
  /\ is_Some (field s' "7" "image_count")
  /\ is_Some (field s' "7" "last_image_reset")
  /\ is_Some (field s' "7" "count").
Proof.
  intros r s s'.
  destruct (legacy_fields_completed s "7" 1234 r eq_refl eq_refl)
    as (H1 & H2 & H3 & H4).
  repeat split; try assumption.
  apply H4. left. eexists. reflexivity.
Defined.

(** C10, the claim as worded fails on a record without ['count']: the
    call returns, ['count'] is still missing, and the [!ask] branch of
    [on_message] then raises [KeyError] at its first lookup. *)
Lemma count_is_not_defaulted :
  let r : record := <["last_reset" := JIso 0]> ∅ in
  let s := sample_state "7" r in
  let w := mkWorld 1234 1234 (fun _ => Responded "hi") in
  result_of (check_and_reset_user_count "7" 1234 s) = Return tt
  /\ field (state_of (check_and_reset_user_count "7" 1234 s)) "7" "count" = None
  /\ result_of (on_message (mkMessage false "7" "!ask hello" []) w s) = Raise KeyError.
Proof. cbv zeta. repeat split; vm_compute; reflexivity. Qed.

(** * The handler after the check *)

(** When [check_and_reset_user_count] returns it has just saved, and
    the record of the user has both timestamps and ['image_count']. *)
Lemma check_and_reset_returns s uid now s1 l1 :
  check_and_reset_user_count uid now s = (Return tt, s1, l1) ->
  exists r1 t1 t2,
    s1 = mkState (<[uid := r1]> (user_request_data s))
                 (Some (<[uid := r1]> (user_request_data s)))
    /\ l1 = [Saved (user_request_data s1)]
    /\ complete r1 t1 t2.
Proof.
  destruct (user_request_data s !! uid) as [r|] eqn:Hs.
  - pose proof (check_and_reset_present (user_request_data s)
                  (request_count_file s) uid now r) as Hrun.
    rewrite <- (state_present s uid r Hs) in Hrun. rewrite Hrun. clear Hrun.
    destruct (lookup_defaults now r) as (D1 & D2 & D3 & D4).
    destruct (check_outcome now (defaults now r)) as [[e r']|r2] eqn:Eo;
      [discriminate|].
    apply check_outcome_inr in Eo as (t1 & t2 & E1 & E2 & ->).
    cbn zeta. intros [= <- <-].
    destruct (lookup_refreshed now t1 t2 (defaults now r)) as (_ & L2 & L3 & L4).
    exists (refreshed now t1 t2 (defaults now r)),
      (if expired now t1 then now else t1), (if expired now t2 then now else t2).
    split; [done|]. split; [done|]. unfold complete.
    rewrite L2, L3, L4, D2, E1, E2.
    destruct (expired now t1), (expired now t2); eauto.
  - rewrite (check_and_reset_new s uid now Hs). cbn zeta. intros [= <- <-].
    exists (new_user_data now), now, now. repeat split. by eexists.
Qed.

Lemma on_message_not_self msg w s :
  author_is_self msg = false ->
  on_message msg w s
  = (check_and_reset_user_count (author_id msg) (now_check w) ;;;
     on_message_command (author_id msg) msg w) s.
Proof. intros H. unfold on_message. by rewrite H. Qed.

Lemma on_message_after_check msg w s s1 l1 :
  author_is_self msg = false ->
  check_and_reset_user_count (author_id msg) (now_check w) s = (Return tt, s1, l1) ->
  on_message msg w s
  = (result_of (on_message_command (author_id msg) msg w s1),
     state_of (on_message_command (author_id msg) msg w s1),
     (l1 ++ events_of (on_message_command (author_id msg) msg w s1))%list).
Proof.
  intros Hself Hcheck. rewrite on_message_not_self by done.
  unfold bind. rewrite Hcheck. unfold result_of, state_of, events_of.
  by destruct (on_message_command _ _ _ _) as [[? ?] ?].
Qed.

(** * Denied requests *)



(** * The wait time *)

(** Inside the window, that is for a remaining time from 0 up to but
    not 24 hours, [time_until_reset] renders the whole hours and the
    remaining whole minutes of [last_reset + 24h - now]. *)
Lemma render_wait_in_window (d : Z) :
  0 <= d < timedelta_hours RESET_HOURS ->
  render_wait d
  = str_of_int (d / 3600000000) ++ "h"
    ++ str_of_int ((d / 60000000) mod 60) ++ "m".
Proof.
  unfold timedelta_hours, RESET_HOURS, render_wait, timedelta_seconds. intros Hd.
  rewrite (Z.mod_small d 86400000000) by lia.
  rewrite Z.div_div by lia.
  replace (d / 1000000 mod 3600 / 60) with (d / 60000000 mod 60); [done|].
  replace 3600 with (60 * 60) by lia.
  rewrite Z.rem_mul_r by lia.
  rewrite (Z.mul_comm 60), Z.div_add by lia.
  rewrite (Z.div_small (d / 1000000 mod 60)) by (apply Z.mod_pos_bound; lia).
  rewrite Z.div_div by lia. done.
Qed.

(** C4, where the code departs from the claim: one second after
    [last_reset + 24h] the function does not answer zero but 23h59m,
    because [time_remaining.seconds] of a negative [timedelta] counts
    from the start of the day before; and the handler does send such a
    reply when the clock passes the end of the window between its two
    readings. *)
Theorem overdue_wait_wraps_around :
  let s := sample_state "7" (sample_record (JInt 24) (JInt 0) 0 0) in
  let day := timedelta_hours RESET_HOURS in
  result_of (time_until_reset "7" "last_reset" (0 + day + 1000000) s)
  = Return "23h59m"
  /\ result_of (time_until_reset "7" "last_reset" (0 + day) s) = Return "0h0m"
  /\ on_message (mkMessage false "7" "!ask again" [])
       (mkWorld (0 + day) (0 + day + 1) (fun _ => Responded "hi")) s
     = (Return tt, s,
        [Saved (user_request_data s); Sent (ask_quota_reply "23h59m")]).
Proof. cbv zeta. repeat split; vm_compute; reflexivity. Qed.

(** * Requests that pass the quota, and failing remote calls *)

(** The remote part of either command starts with its call. *)
Lemma ask_remote_calls_first msg w s :
  exists text url l,
    events_of (ask_remote msg w s) = Called (ChatCompletion text url) :: l.
Proof.
  unfold ask_remote, events_of. destruct (attachments msg) as [|u atts].
  - unfold bind, call, emit. destruct (api w 0%nat); cbn; eauto.
  - cbn [ask_attachments]. unfold bind at 1, call, bind at 1, emit.
    destruct (api w 0%nat); cbn; [|eauto].
    destruct (ask_attachments _ _ _ _ _) as [[? ?] ?]. cbn. eauto.
Qed.

Lemma make_remote_calls_first msg w s :
  exists l,
    events_of (make_remote msg w s)
    = Called (ImageGenerate (strip (slice_from 6 (content msg)))) :: l.
Proof.
  unfold make_remote, events_of, bind, call, emit.
  destruct (api w 0%nat); cbn; eauto.
Qed.

(** An admitted [!ask]: the counter goes up by one and the mapping is
    saved, then comes the first remote call; whatever the calls do, the
    handler completes and the state stays the one that was saved (the
    counter is not given back). *)
Lemma granted_ask_saves_before_call d f uid r n msg w :
  r !! "count" = Some (JInt n) ->
  n < REQUEST_LIMIT ->
  let m := <[uid := <["count" := JInt (n + 1)]> r]> d in
  exists text url l,
    on_message_ask uid msg w (mkState (<[uid := r]> d) f)
    = (Return tt, mkState m (Some m),
       Saved m :: Called (ChatCompletion text url) :: l).
Proof.
  intros Hc Hn m. rewrite on_message_ask_run, Hc. cbn [counter].
  rewrite Z.geb_leb, (proj2 (Z.leb_gt _ _)) by done.
  cbn zeta. fold m.
  destruct (try_except_catch_all (ask_remote msg w) ask_handlers
              (mkState m (Some m)) ask_handlers_catch_all) as (_ & _ & l & ->).
  destruct (ask_remote_calls_first msg w (mkState m (Some m)))
    as (text & url & l' & ->).
  eauto.
Qed.

Lemma granted_make_saves_before_call d f uid r n msg w :
  r !! "image_count" = Some (JInt n) ->
  n < IMAGE_REQUEST_LIMIT ->
  let m := <[uid := <["image_count" := JInt (n + 1)]> r]> d in
  exists l,
    on_message_make uid msg w (mkState (<[uid := r]> d) f)
    = (Return tt, mkState m (Some m),
       Saved m :: Called (ImageGenerate (strip (slice_from 6 (content msg)))) :: l).
Proof.
  intros Hc Hn m. rewrite on_message_make_run, Hc. cbn [counter].
  rewrite Z.geb_leb, (proj2 (Z.leb_gt _ _)) by done.
  cbn zeta. fold m.
  destruct (try_except_catch_all (make_remote msg w) make_handlers
              (mkState m (Some m)) make_handlers_catch_all) as (_ & _ & l & ->).
  destruct (make_remote_calls_first msg w (mkState m (Some m))) as (l' & ->).
  eauto.
Qed.

(** Every exception below [APIError] is taken by the first clause: the
    clauses for connection, rate-limit and authentication errors are
    never selected. *)
Lemma first_clause_takes_api_errors e :
  issubclass e APIError = true ->
  selected ask_handlers e
  = Some (apologise "OpenAI API returned an API Error"
            "Sorry, there was an issue with the AI service. Please try again later.")
  /\ selected make_handlers e
     = Some (apologise "OpenAI API returned an API Error"
               "Sorry, there was an issue with the image generation service. Please try again later.").
Proof. destruct e; try discriminate; intros _; split; reflexivity. Qed.

(** C6, where the code departs from the claim: an [!ask] whose remote
    call raises [AuthenticationError] is counted and saved before the
    call and stays counted, but the reply is the one of the
    [except APIError] clause, not the one written for authentication
    failures. *)
Theorem authentication_failure_gets_api_error_reply :
  let r := sample_record (JInt 3) (JInt 0) 0 0 in
  let s := sample_state "7" r in
  let w := mkWorld 1000 1000 (fun _ => Failed AuthenticationError) in
  let msg := mkMessage false "7" "!ask hello" [] in
  let m := <["7" := <["count" := JInt 4]> r]> (user_request_data s) in
  on_message msg w s
  = (Return tt, mkState m (Some m),
     [Saved (user_request_data s);
      Saved m;
      Called (ChatCompletion "!ask hello" None);
      Printed "OpenAI API returned an API Error" AuthenticationError;
      Sent "Sorry, there was an issue with the AI service. Please try again later."])
  /\ "Sorry, there was an issue with the AI service. Please try again later."
     <> "Sorry, it looks like I've run out of credits. Please check back later or contact support.".
Proof. cbv zeta. split; [vm_compute; reflexivity | discriminate]. Qed.

(** * Persistence *)

Lemma on_message_command_synced d uid r msg w :
  let s1 := mkState (<[uid := r]> d) (Some (<[uid := r]> d)) in
  let s2 := state_of (on_message_command uid msg w s1) in
  request_count_file s2 = Some (user_request_data s2).
Proof.
  cbv zeta. unfold on_message_command.
  destruct (startswith (content msg) "!ask").
  { rewrite on_message_ask_run.
    destruct (counter (r !! "count")) as [e|n]; [done|].
    destruct (n >=? REQUEST_LIMIT); [|done].
    by destruct (timestamp (r !! "last_reset")). }
  destruct (startswith (content msg) "!make"); [|done].
  rewrite on_message_make_run.
  destruct (counter (r !! "image_count")) as [e|n]; [done|].
  destruct (n >=? IMAGE_REQUEST_LIMIT); [|done].
  by destruct (timestamp (r !! "last_image_reset")).
Qed.

(** C7, as amended: at start the mapping of an existing file is taken
    as it is and the file is left alone, and without a file the mapping
    is empty and is written at once.  A call of
    [check_and_reset_user_count] that returns, which every creation of
    a record does and every window reset of a call that runs to its
    end, ends by writing the whole mapping, so that the file holds the
    mapping in memory.  A call that raises writes nothing and leaves
    the file as it was; in memory it has filled in the defaults, and
    when it fails at the subtraction of an offset-aware image timestamp
    it has also tested and reset the text window.  A handler run whose
    check returned ends with the file holding the mapping in memory,
    whether the request was admitted (and counted), denied or not a
    command. *)
Theorem mapping_saved_after_every_mutation disk s uid now msg w :
  (forall m, disk = Some m -> load disk = (mkState m (Some m), []))
  /\ (disk = None -> load disk = (mkState ∅ (Some ∅), [Saved ∅]))
  /\ (result_of (check_and_reset_user_count uid now s) = Return tt ->
      let s' := state_of (check_and_reset_user_count uid now s) in
      request_count_file s' = Some (user_request_data s')
      /\ events_of (check_and_reset_user_count uid now s)
         = [Saved (user_request_data s')])
  /\ (forall e,
        result_of (check_and_reset_user_count uid now s) = Raise e ->
        events_of (check_and_reset_user_count uid now s) = []
        /\ exists r r',
             user_request_data s !! uid = Some r
             /\ state_of (check_and_reset_user_count uid now s)
                = mkState (<[uid := r']> (user_request_data s))
                          (request_count_file s)
             /\ (r' = defaults now r
                 \/ exists t1 a2,
                      defaults now r !! "last_reset" = Some (JIso t1)
                      /\ defaults now r !! "last_image_reset" = Some (JIsoAware a2)
                      /\ r' = if expired now t1
                              then reset_text now (defaults now r)
                              else defaults now r))
  /\ (author_is_self msg = false ->
      result_of (check_and_reset_user_count (author_id msg) (now_check w) s)
      = Return tt ->
      let s' := state_of (on_message msg w s) in
      request_count_file s' = Some (user_request_data s')).
Proof.
  split; [by intros m ->|]. split; [by intros ->|].
  split; [|split].
  - intros Hret.
    destruct (check_and_reset_user_count uid now s) as [[res s1] l1] eqn:E.
    unfold result_of in Hret; cbn in Hret. subst res.
    destruct (check_and_reset_returns _ _ _ _ _ E) as (r1 & t1 & t2 & -> & -> & _).
    done.
  - intros e Hraise.
    destruct (user_request_data s !! uid) as [r|] eqn:Hs.
    + revert Hraise.
      pose proof (check_and_reset_present (user_request_data s)
                    (request_count_file s) uid now r) as Hrun.
      rewrite <- (state_present s uid r Hs) in Hrun. rewrite Hrun.
      destruct (check_outcome now (defaults now r)) as [[e' r']|r2] eqn:Eo;
        [|discriminate].
      intros _. split; [done|]. exists r, r'. split; [done|]. split; [done|].
      destruct (check_outcome_inl _ _ _ _ Eo) as [_ [->|(t1 & a2 & H1 & H2 & _ & ->)]];
        eauto 10.
    + by rewrite (check_and_reset_new s _ now Hs) in Hraise.
  - intros Hself Hret.
    destruct (check_and_reset_user_count (author_id msg) (now_check w) s)
      as [[res s1] l1] eqn:E.
    unfold result_of in Hret; cbn in Hret. subst res.
    rewrite (on_message_after_check msg w s s1 l1 Hself E).
    destruct (check_and_reset_returns _ _ _ _ _ E) as (r1 & t1 & t2 & -> & _ & _).
    apply on_message_command_synced.
Qed.

(** C7, the claim as worded fails when the stored image timestamp
    carries a UTC offset and the text window has run out: the call
    resets the text window (lines 66 and 67), raises [TypeError] at
    the subtraction of line 68 and never reaches the save of line 73,
    so the reset is in memory and not in the file. *)
Lemma reset_left_unsaved :
  let r : record :=
    <["count" := JInt 9]> (<["image_count" := JInt 3]>
    (<["last_reset" := JIso 0]> (<["last_image_reset" := JIsoAware 0]> ∅))) in
  let s := sample_state "7" r in
  let now := 0 + timedelta_hours RESET_HOURS + 1 in
  let x := check_and_reset_user_count "7" now s in
  result_of x = Raise TypeError
  /\ events_of x = []
  /\ field (state_of x) "7" "count" = Some (JInt 0)
  /\ field (state_of x) "7" "last_reset" = Some (JIso now)
  /\ request_count_file (state_of x) = Some (user_request_data s)
  /\ request_count_file (state_of x) <> Some (user_request_data (state_of x)).
Proof.
  cbv zeta. repeat split; try (vm_compute; reflexivity).
  vm_compute. discriminate.
Qed.

Lemma mapping_saved_after_every_mutation_witness :
  let s := mkState {["7" := sample_record (JInt 3) (JInt 0) 0 0]} None in
  let w := mkWorld 1000 1000 (fun _ => Failed RateLimitError) in
  let msg := mkMessage false "7" "!ask hello" [] in
  request_count_file (state_of (on_message msg w s))
  = Some (user_request_data (state_of (on_message msg w s)))
  /\ field (state_of (on_message msg w s)) "7" "count" = Some (JInt 4).
Proof.
  intros s w msg. split; [|vm_compute; reflexivity].
  apply (mapping_saved_after_every_mutation None s "7" 1000 msg w);
    vm_compute; reflexivity.
Defined.

(** * The image prompt *)

(** When the character after the five of [!make] is white space, or
    there is none, cutting six characters and cutting the five of the
    trigger give the same prompt. *)
Lemma make_prompt_after_space (a : ascii) (rest : string) :
  isspace a = true ->
  strip (slice_from (String.length "!make ") ("!make" ++ String a rest))
  = strip (slice_from (String.length "!make") ("!make" ++ String a rest)).
Proof.
  intros Ha. change (strip rest = strip (String a rest)).
  unfold strip. cbn [lstrip]. by rewrite Ha.
Qed.

Lemma make_prompt_bare :
  strip (slice_from (String.length "!make ") "!make")
  = strip (slice_from (String.length "!make") "!make").
Proof. reflexivity. Qed.

(** C8, where the code departs from the claim: the branch is entered
    for every text that starts with the five characters [!make], but
    the prompt is cut after six; for [!makeup tips] the capability
    receives [p tips], not [up tips]. *)
Theorem make_prompt_drops_a_character :
  let r := sample_record (JInt 0) (JInt 0) 0 0 in
  let s := sample_state "7" r in
  let w := mkWorld 1000 1000 (fun _ => Responded "https://img/1") in
  let msg := mkMessage false "7" "!makeup tips" [] in
  let m := <["7" := <["image_count" := JInt 1]> r]> (user_request_data s) in
  startswith (content msg) "!make" = true
  /\ on_message msg w s
     = (Return tt, mkState m (Some m),
        [Saved (user_request_data s);
         Saved m;
         Called (ImageGenerate "p tips");
         Sent "Here is your generated image: https://img/1"])
  /\ strip (slice_from (String.length "!make") (content msg)) = "up tips".
Proof. cbv zeta. repeat split; vm_compute; reflexivity. Qed.

(** * Counting the requests that pass the quota *)


Section window.
Context (uid : string) (t0 : Z).




End window.




(** * Further properties of the code *)

(** ** time_until_reset *)

Lemma time_until_reset_absent s uid reset_type now :
  user_request_data s !! uid = None ->
  time_until_reset uid reset_type now s = (Raise KeyError, s, []).
Proof.
  intros Hs. unfold time_until_reset, getitem.
  erewrite bind_raise; [reflexivity|].
  erewrite bind_raise; [reflexivity|].
  unfold get_user. by rewrite Hs.
Qed.

(** X1: [time_until_reset] only reads: whatever it returns or raises,
    the mapping and the file are as before and nothing is written,
    sent, printed or called.  It raises [KeyError] when the user or the
    field is missing, [ValueError] on a string that is not a timestamp
    and [TypeError] on a number. *)
Theorem time_until_reset_only_reads s uid reset_type now :
  state_of (time_until_reset uid reset_type now s) = s
  /\ events_of (time_until_reset uid reset_type now s) = []
  /\ (field s uid reset_type = None ->
      result_of (time_until_reset uid reset_type now s) = Raise KeyError)
  /\ (forall x, field s uid reset_type = Some (JStr x) ->
      result_of (time_until_reset uid reset_type now s) = Raise ValueError)
  /\ (forall n, field s uid reset_type = Some (JInt n) ->
      result_of (time_until_reset uid reset_type now s) = Raise TypeError).
Proof.
  unfold field.
  destruct (user_request_data s !! uid) as [r|] eqn:Hs; cbn.
  - pose proof (time_until_reset_run (user_request_data s)
                  (request_count_file s) uid r reset_type now) as Hrun.
    rewrite <- (state_present s uid r Hs) in Hrun. rewrite Hrun.
    destruct (r !! reset_type) as [[n|t|a|x]|]; cbn;
      repeat split; intros; congruence.
  - rewrite (time_until_reset_absent s uid reset_type now Hs).
    repeat split; intros; congruence.
Qed.

Lemma time_until_reset_only_reads_witness :
  let s := sample_state "7" (sample_record (JInt 1) (JStr "soon") 0 0) in
  result_of (time_until_reset "7" "image_count" 5 s) = Raise ValueError
  /\ result_of (time_until_reset "8" "last_reset" 5 s) = Raise KeyError.
Proof.
  intros s.
  destruct (time_until_reset_only_reads s "7" "image_count" 5) as (_ & _ & _ & H & _).
  destruct (time_until_reset_only_reads s "8" "last_reset" 5) as (_ & _ & H' & _).
  split; [apply (H "soon") | apply H']; reflexivity.
Defined.

(** X2: while the window is open, that is when [last + 24h - now] is
    at least 0 and less than 24 hours, [time_until_reset] returns the
    whole hours of that time, from 0 to 23, then [h], then the whole
    minutes left over, from 0 to 59, then [m]. *)
Theorem wait_time_inside_window s uid reset_type last now :
  field s uid reset_type = Some (JIso last) ->
  0 <= last + timedelta_hours RESET_HOURS - now < timedelta_hours RESET_HOURS ->
  let d := last + timedelta_hours RESET_HOURS - now in
  let hours := d / 3600000000 in
  let minutes := (d / 60000000) mod 60 in
  result_of (time_until_reset uid reset_type now s)
  = Return (str_of_int hours ++ "h" ++ str_of_int minutes ++ "m")
  /\ 0 <= hours < 24
  /\ 0 <= minutes < 60
  /\ d - 60000000 < (hours * 60 + minutes) * 60000000 <= d.
Proof.
  intros Hf Hd d hours minutes. unfold field in Hf.
  destruct (user_request_data s !! uid) as [r|] eqn:Hs; [|discriminate].
  cbn in Hf.
  pose proof (time_until_reset_run (user_request_data s)
                (request_count_file s) uid r reset_type now) as Hrun.
  rewrite <- (state_present s uid r Hs) in Hrun. rewrite Hrun, Hf.
  cbn [timestamp result_of fst]. fold d.
  rewrite (render_wait_in_window d Hd).
  fold d in Hd. unfold timedelta_hours, RESET_HOURS in Hd.
  split; [done|].
  assert (Hh : 0 <= hours < 24).
  { unfold hours. split.
    - apply Z.div_pos; lia.
    - apply Z.div_lt_upper_bound; lia. }
  assert (Hm : 0 <= minutes < 60) by (apply Z.mod_pos_bound; lia).
  split; [done|]. split; [done|].
  assert (E : hours = (d / 60000000) / 60).
  { unfold hours. rewrite Z.div_div by lia. done. }
  pose proof (Z.div_mod (d / 60000000) 60 ltac:(lia)) as E1.
  pose proof (Z.div_mod d 60000000 ltac:(lia)) as E2.
  pose proof (Z.mod_pos_bound d 60000000 ltac:(lia)) as B2.
  fold minutes in E1. rewrite <- E in E1. lia.
Qed.

Lemma wait_time_inside_window_witness :
  let s := sample_state "7" (sample_record (JInt 24) (JInt 0) 0 0) in
  result_of (time_until_reset "7" "last_reset" 3600000000 s) = Return "23h0m".
Proof.
  intros s.
  refine (proj1 (wait_time_inside_window s "7" "last_reset" 0 3600000000 eq_refl _)).
  unfold timedelta_hours, RESET_HOURS. lia.
Defined.

(** ** check_and_reset_user_count *)

Lemma timestamp_builtin v e : timestamp v = inl e -> builtin e.
Proof. unfold builtin. destruct v as [[n|t|a|x]|]; cbn; intros [= <-]; eauto. Qed.

Lemma counter_builtin v e : counter v = inl e -> builtin e.
Proof. unfold builtin. destruct v as [[n|t|a|x]|]; cbn; intros [= <-]; eauto. Qed.

Lemma parsed_default now (o : option json) :
  parsed (Some (default (JIso now) o))
  = match o with
    | None => inr (Naive now)
    | Some _ => parsed o
    end.
Proof. by destruct o. Qed.

(** X3: [check_and_reset_user_count] returns exactly when the user is
    new or each of ['last_reset'] and ['last_image_reset'], where the
    record has it, holds a timestamp string without UTC offset.
    Otherwise it raises [ValueError] (a string that is not a
    timestamp) or [TypeError] (a number, or a timestamp with an
    offset), and then it has written nothing to the file; in memory
    the record has its defaults filled in and, unless the stored image
    timestamp carries an offset, nothing else is changed. *)
Theorem check_and_reset_returns_iff s uid now :
  (result_of (check_and_reset_user_count uid now s) = Return tt <->
   forall r, user_request_data s !! uid = Some r ->
     (forall v, r !! "last_reset" = Some v -> exists t, v = JIso t)
     /\ (forall v, r !! "last_image_reset" = Some v -> exists t, v = JIso t))
  /\ (forall e, result_of (check_and_reset_user_count uid now s) = Raise e ->
      (e = ValueError \/ e = TypeError)
      /\ events_of (check_and_reset_user_count uid now s) = []
      /\ request_count_file (state_of (check_and_reset_user_count uid now s))
         = request_count_file s
      /\ exists r,
           user_request_data s !! uid = Some r
           /\ ((forall a, r !! "last_image_reset" <> Some (JIsoAware a)) ->
               user_request_data (state_of (check_and_reset_user_count uid now s))
                 !! uid = Some (defaults now r))).
Proof.
  destruct (user_request_data s !! uid) as [r|] eqn:Hs.
  2:{ rewrite (check_and_reset_new s uid now Hs). cbn zeta.
      split; [|intros e [=]]. split; [done|reflexivity]. }
  pose proof (check_and_reset_present (user_request_data s)
                (request_count_file s) uid now r) as Hrun.
  rewrite <- (state_present s uid r Hs) in Hrun. rewrite Hrun. clear Hrun.
  unfold check_outcome.
  destruct (lookup_defaults now r) as (-> & _ & -> & _).
  rewrite !parsed_default.
  destruct (r !! "last_reset") as [[n1|t1|a1|x1]|] eqn:E1;
    destruct (r !! "last_image_reset") as [[n2|t2|a2|x2]|] eqn:E2;
    cbn [parsed result_of state_of events_of fst snd request_count_file
         user_request_data].
  all: split.
  all: match goal with
       | |- _ <-> _ =>
           split;
           [ try discriminate; intros _ r' [= <-]; rewrite ?E1, ?E2;
             split; intros v [=]; subst; eauto
           | intros H; try reflexivity; exfalso;
             destruct (H r eq_refl) as [H1 H2];
             first [ by destruct (H1 _ E1) as [? [=]]
                   | by destruct (H2 _ E2) as [? [=]] ] ]
       | |- forall e, _ -> _ =>
           intros e He;
           first
             [ discriminate He
             | injection He as <-;
               split; [eauto|]; split; [done|]; split; [done|];
               exists r; split; [done|];
               intros Hno;
               first [ by rewrite lookup_insert_eq | by destruct (Hno a2) ] ]
       end.
Qed.

Lemma check_and_reset_returns_iff_witness :
  let r : record := <["last_reset" := JStr "yesterday"]> (<["count" := JInt 2]> ∅) in
  let s := sample_state "7" r in
  events_of (check_and_reset_user_count "7" 5 s) = []
  /\ request_count_file (state_of (check_and_reset_user_count "7" 5 s))
     = request_count_file s.
Proof.
  intros r s.
  destruct (check_and_reset_returns_iff s "7" 5) as [_ H].
  destruct (H ValueError eq_refl) as (_ & H1 & H2 & _). by split.
Defined.

(** When the call returns, both windows are open at [now]. *)
Lemma check_and_reset_returns_open s uid now s1 l1 :
  check_and_reset_user_count uid now s = (Return tt, s1, l1) ->
  exists r1 t1 t2,
    s1 = mkState (<[uid := r1]> (user_request_data s))
                 (Some (<[uid := r1]> (user_request_data s)))
    /\ complete r1 t1 t2
    /\ expired now t1 = false
    /\ expired now t2 = false.
Proof.
  assert (Hnow : expired now now = false).
  { apply expired_false. unfold timedelta_hours, RESET_HOURS. lia. }
  destruct (user_request_data s !! uid) as [r|] eqn:Hs.
  - pose proof (check_and_reset_present (user_request_data s)
                  (request_count_file s) uid now r) as Hrun.
    rewrite <- (state_present s uid r Hs) in Hrun. rewrite Hrun. clear Hrun.
    destruct (lookup_defaults now r) as (D1 & D2 & D3 & D4).
    destruct (check_outcome now (defaults now r)) as [[e r']|r2] eqn:Eo;
      [discriminate|].
    apply check_outcome_inr in Eo as (t1 & t2 & E1 & E2 & ->).
    cbn zeta. intros [= <- <-].
    destruct (lookup_refreshed now t1 t2 (defaults now r)) as (_ & L2 & L3 & L4).
    exists (refreshed now t1 t2 (defaults now r)),
      (if expired now t1 then now else t1), (if expired now t2 then now else t2).
    split; [done|]. unfold complete.
    rewrite L2, L3, L4, D2, E1, E2.
    destruct (expired now t1) eqn:X1, (expired now t2) eqn:X2; eauto 10.
  - rewrite (check_and_reset_new s uid now Hs). cbn zeta. intros [= <- <-].
    exists (new_user_data now), now, now.
    repeat split; first [done | by eexists].
Qed.

(** X4: a second call of [check_and_reset_user_count] for the same
    user at the same clock reading changes nothing: when the first call
    returns, the second returns too, leaves the mapping and the file as
    the first left them, and only writes the same mapping again. *)
Theorem check_and_reset_twice s uid now :
  result_of (check_and_reset_user_count uid now s) = Return tt ->
  let s1 := state_of (check_and_reset_user_count uid now s) in
  check_and_reset_user_count uid now s1
  = (Return tt, s1, [Saved (user_request_data s1)]).
Proof.
  intros Hret.
  destruct (check_and_reset_user_count uid now s) as [[res s1] l1] eqn:E.
  unfold result_of in Hret; cbn in Hret. subst res.
  destruct (check_and_reset_returns_open _ _ _ _ _ E)
    as (r1 & t1 & t2 & -> & Hc & X1 & X2).
  cbv zeta. unfold state_of; cbn [fst snd].
  rewrite (check_and_reset_complete _ uid now r1 t1 t2);
    [|cbn; by rewrite lookup_insert_eq|done].
  cbn zeta. cbn [user_request_data]. unfold refreshed. rewrite X1, X2.
  by rewrite insert_insert_eq.
Qed.

Lemma check_and_reset_twice_witness :
  let s := sample_state "7" (sample_record (JInt 9) (JInt 3) 0 50) in
  let s1 := state_of (check_and_reset_user_count "7" 86400000001 s) in
  state_of (check_and_reset_user_count "7" 86400000001 s1) = s1.
Proof.
  intros s s1.
  pose proof (check_and_reset_twice s "7" 86400000001 eq_refl) as H.
  cbv zeta in H. fold s1 in H. by rewrite H.
Defined.

(** X5: the reset timestamps never move back: after a call of
    [check_and_reset_user_count] on a record with both timestamps, each
    timestamp is the old one or a later one, and the counter of a
    window whose timestamp has not moved is the old counter. *)
Theorem reset_timestamps_never_go_back s uid now r t1 t2 :
  user_request_data s !! uid = Some r ->
  complete r t1 t2 ->
  let s' := state_of (check_and_reset_user_count uid now s) in
  exists t1' t2',
    field s' uid "last_reset" = Some (JIso t1')
    /\ field s' uid "last_image_reset" = Some (JIso t2')
    /\ t1 <= t1' /\ t2 <= t2'
    /\ (t1' = t1 -> field s' uid "count" = r !! "count")
    /\ (t2' = t2 -> field s' uid "image_count" = r !! "image_count").
Proof.
  intros Hs Hc. rewrite (check_and_reset_complete s uid now r t1 t2 Hs Hc).
  cbn zeta. unfold state_of; cbn [fst snd]. rewrite !field_present.
  destruct (lookup_refreshed now t1 t2 r) as (-> & -> & -> & ->).
  destruct Hc as (H1 & H2 & _). rewrite H1, H2.
  exists (if expired now t1 then now else t1), (if expired now t2 then now else t2).
  destruct (expired now t1) eqn:X1, (expired now t2) eqn:X2;
    try apply expired_spec in X1; try apply expired_spec in X2;
    unfold timedelta_hours, RESET_HOURS in *;
    repeat split; try done; try lia.
Qed.

Lemma reset_timestamps_never_go_back_witness :
  let s := sample_state "7" (sample_record (JInt 9) (JInt 3) 0 50) in
  exists t1' t2',
    field (state_of (check_and_reset_user_count "7" 86400000001 s)) "7" "last_reset"
    = Some (JIso t1')
    /\ field (state_of (check_and_reset_user_count "7" 86400000001 s)) "7"
         "last_image_reset" = Some (JIso t2')
    /\ 0 <= t1' /\ 50 <= t2'.
Proof.
  intros s.
  destruct (reset_timestamps_never_go_back s "7" 86400000001
              (sample_record (JInt 9) (JInt 3) 0 50) 0 50 eq_refl
              (sample_record_complete _ _ _ _))
    as (t1' & t2' & H1 & H2 & H3 & H4 & _).
  exists t1', t2'. eauto.
Defined.

(** ** on_message and the other users *)

(** X6: a message changes the record of nobody but its author: for
    every other user the entry of the mapping after the run, returned
    or raised, is the entry before. *)
Theorem other_users_untouched msg w s k :
  k <> author_id msg ->
  user_request_data (state_of (on_message msg w s)) !! k
  = user_request_data s !! k.
Proof. intros Hk. by apply on_message_only_touches. Qed.

Lemma other_users_untouched_witness :
  let s := sample_state "7" (sample_record (JInt 9) (JInt 3) 0 50) in
  let w := mkWorld 1234 1234 (fun _ => Responded "hi") in
  user_request_data (state_of (on_message (mkMessage false "8" "!ask hello" []) w s)) !! "7"
  = user_request_data s !! "7".
Proof.
  intros s w.
  apply (other_users_untouched (mkMessage false "8" "!ask hello" []) w s "7").
  discriminate.
Defined.

(** ** The except clauses *)

(** X7: of the five [except] clauses of either [try] only the first
    and the last are ever taken: an exception below [APIError] gets
    the reply of the [APIError] clause, any other exception the reply
    of the [Exception] clause; the clauses for connection, rate-limit
    and authentication errors are never selected. *)
Theorem only_two_clauses_are_taken e :
  (issubclass e APIError = true ->
   selected ask_handlers e
   = Some (apologise "OpenAI API returned an API Error"
             "Sorry, there was an issue with the AI service. Please try again later.")
   /\ selected make_handlers e
      = Some (apologise "OpenAI API returned an API Error"
                "Sorry, there was an issue with the image generation service. Please try again later."))
  /\ (issubclass e APIError = false ->
      selected ask_handlers e
      = Some (apologise "An unexpected error occurred" "Sorry, something went wrong.")
      /\ selected make_handlers e
         = Some (apologise "An unexpected error occurred" "Sorry, something went wrong.")).
Proof. destruct e; split; intros H; try discriminate H; split; reflexivity. Qed.

Lemma only_two_clauses_are_taken_witness :
  selected ask_handlers RateLimitError
  = Some (apologise "OpenAI API returned an API Error"
            "Sorry, there was an issue with the AI service. Please try again later.")
  /\ selected make_handlers KeyError
     = Some (apologise "An unexpected error occurred" "Sorry, something went wrong.").
Proof.
  split.
  - apply (proj1 (only_two_clauses_are_taken RateLimitError)). reflexivity.
  - apply (proj2 (only_two_clauses_are_taken KeyError)). reflexivity.
Defined.

(** ** on_message on the records that the program writes *)

Lemma lookup_after_message msg now t1 t2 c ic (r : record) :
  complete r t1 t2 ->
  r !! "count" = Some (JInt c) ->
  r !! "image_count" = Some (JInt ic) ->
  let r' := after_message msg now t1 t2 c ic r in
  let c1 := if expired now t1 then 0 else c in
  let ic1 := if expired now t2 then 0 else ic in
  r' !! "last_reset" = Some (JIso (if expired now t1 then now else t1))
  /\ r' !! "last_image_reset" = Some (JIso (if expired now t2 then now else t2))
  /\ r' !! "count"
     = Some (JInt (if startswith (content msg) "!ask" && negb (c1 >=? REQUEST_LIMIT)
                   then c1 + 1 else c1))
  /\ r' !! "image_count"
     = Some (JInt (if negb (startswith (content msg) "!ask")
                      && startswith (content msg) "!make"
                      && negb (ic1 >=? IMAGE_REQUEST_LIMIT)
                   then ic1 + 1 else ic1)).
Proof.
  intros (H1 & H2 & _) Hc Hic. cbv zeta. unfold after_message.
  destruct (lookup_refreshed now t1 t2 r) as (L1 & L2 & L3 & L4).
  rewrite H1 in L2. rewrite H2 in L4. rewrite Hc in L1. rewrite Hic in L3.
  assert (L1' : refreshed now t1 t2 r !! "count"
                = Some (JInt (if expired now t1 then 0 else c)))
    by (rewrite L1; by destruct (expired now t1)).
  assert (L2' : refreshed now t1 t2 r !! "last_reset"
                = Some (JIso (if expired now t1 then now else t1)))
    by (rewrite L2; by destruct (expired now t1)).
  assert (L3' : refreshed now t1 t2 r !! "image_count"
                = Some (JInt (if expired now t2 then 0 else ic)))
    by (rewrite L3; by destruct (expired now t2)).
  assert (L4' : refreshed now t1 t2 r !! "last_image_reset"
                = Some (JIso (if expired now t2 then now else t2)))
    by (rewrite L4; by destruct (expired now t2)).
  destruct (startswith (content msg) "!ask"); cbn [andb negb].
  { destruct (_ >=? REQUEST_LIMIT); cbn [negb]; by simplify_map_eq. }
  destruct (startswith (content msg) "!make"); cbn [andb negb];
    [|by simplify_map_eq].
  destruct (_ >=? IMAGE_REQUEST_LIMIT); cbn [negb]; by simplify_map_eq.
Qed.

(** The handler on a record with both timestamps and both counters:
    it returns, and mapping and file hold the record [after_message]. *)
Lemma on_message_typed msg w s r t1 t2 c ic :
  author_is_self msg = false ->
  user_request_data s !! author_id msg = Some r ->
  complete r t1 t2 ->
  r !! "count" = Some (JInt c) ->
  r !! "image_count" = Some (JInt ic) ->
  result_of (on_message msg w s) = Return tt
  /\ state_of (on_message msg w s)
     = (let m := <[author_id msg := after_message msg (now_check w) t1 t2 c ic r]>
                   (user_request_data s) in
        mkState m (Some m)).
Proof.
  intros Hself Hs Hcomp Hc Hic.
  pose proof (check_and_reset_complete s (author_id msg) (now_check w) r t1 t2
                Hs Hcomp) as Hcheck.
  cbn zeta in Hcheck.
  rewrite (on_message_after_check msg w s _ _ Hself Hcheck).
  unfold result_of, state_of; cbn [fst snd].
  destruct (lookup_refreshed (now_check w) t1 t2 r) as (L1 & L2 & L3 & L4).
  destruct Hcomp as (H1 & H2 & _).
  rewrite H1 in L2. rewrite H2 in L4. rewrite Hc in L1. rewrite Hic in L3.
  unfold on_message_command, after_message. cbn zeta.
  destruct (startswith (content msg) "!ask").
  { rewrite on_message_ask_run, L1, L2.
    destruct (expired (now_check w) t1); cbn [counter timestamp];
      destruct (_ >=? REQUEST_LIMIT); cbn zeta; cbn [fst snd];
      by rewrite ?insert_insert_eq. }
  destruct (startswith (content msg) "!make"); [|done].
  rewrite on_message_make_run, L3, L4.
  destruct (expired (now_check w) t2); cbn [counter timestamp];
    destruct (_ >=? IMAGE_REQUEST_LIMIT); cbn zeta; cbn [fst snd];
    by rewrite ?insert_insert_eq.
Qed.

(** For a user who is not in the mapping the handler does what it does
    on the record that the check creates. *)
Lemma on_message_absent msg w s :
  author_is_self msg = false ->
  user_request_data s !! author_id msg = None ->
  result_of (on_message msg w s)
  = result_of (on_message msg w
      (mkState (<[author_id msg := new_user_data (now_check w)]> (user_request_data s))
               (request_count_file s)))
  /\ state_of (on_message msg w s)
     = state_of (on_message msg w
         (mkState (<[author_id msg := new_user_data (now_check w)]> (user_request_data s))
                  (request_count_file s))).
Proof.
  intros Hself Hs.
  pose proof (check_and_reset_new s (author_id msg) (now_check w) Hs) as Hl.
  cbn zeta in Hl.
  rewrite (on_message_after_check msg w s _ _ Hself Hl).
  assert (Hopen : expired (now_check w) (now_check w) = false).
  { apply expired_false. unfold timedelta_hours, RESET_HOURS. lia. }
  pose proof (check_and_reset_complete
                (mkState (<[author_id msg := new_user_data (now_check w)]>
                            (user_request_data s)) (request_count_file s))
                (author_id msg) (now_check w) (new_user_data (now_check w))
                (now_check w) (now_check w)) as Hr.
  cbn [user_request_data] in Hr. rewrite lookup_insert_eq in Hr.
  specialize (Hr eq_refl). cbn zeta in Hr. unfold refreshed in Hr.
  rewrite Hopen, insert_insert_eq in Hr.
  rewrite (on_message_after_check msg w _ _ _ Hself
             (Hr ltac:(repeat split; by eexists))).
  done.
Qed.

(** The record that the check creates is well formed, and so is the
    record after a message. *)
Lemma new_user_data_well_formed now : well_formed (new_user_data now).
Proof.
  exists now, now, 0, 0. unfold REQUEST_LIMIT, IMAGE_REQUEST_LIMIT.
  repeat split; done.
Qed.

Lemma after_message_well_formed msg now t1 t2 c ic (r : record) :
  complete r t1 t2 ->
  r !! "count" = Some (JInt c) ->
  r !! "image_count" = Some (JInt ic) ->
  0 <= c <= REQUEST_LIMIT ->
  0 <= ic <= IMAGE_REQUEST_LIMIT ->
  well_formed (after_message msg now t1 t2 c ic r).
Proof.
  intros Hcomp Hc Hic Bc Bic.
  destruct (lookup_after_message msg now t1 t2 c ic r Hcomp Hc Hic)
    as (L1 & L2 & L3 & L4).
  eexists _, _, _, _. split; [exact L1|]. split; [exact L2|].
  split; [exact L3|]. split; [exact L4|].
  unfold REQUEST_LIMIT, IMAGE_REQUEST_LIMIT in *.
  split.
  - destruct (startswith _ "!ask"); cbn [andb]; [|destruct (expired now t1); lia].
    destruct (expired now t1); cbn [negb];
      match goal with |- context [?a >=? ?b] =>
        destruct (Z.geb_spec a b); cbn [negb]; lia end.
  - destruct (negb _ && startswith _ "!make"); cbn [andb];
      [|destruct (expired now t2); lia].
    destruct (expired now t2); cbn [negb];
      match goal with |- context [?a >=? ?b] =>
        destruct (Z.geb_spec a b); cbn [negb]; lia end.
Qed.

Lemma well_formed_typed (r : record) :
  well_formed r ->
  exists t1 t2 c ic,
    complete r t1 t2
    /\ r !! "count" = Some (JInt c)
    /\ r !! "image_count" = Some (JInt ic)
    /\ 0 <= c <= REQUEST_LIMIT
    /\ 0 <= ic <= IMAGE_REQUEST_LIMIT.
Proof.
  intros (t1 & t2 & c & ic & H1 & H2 & H3 & H4 & B1 & B2).
  exists t1, t2, c, ic. unfold complete. rewrite H4. eauto 10.
Qed.

Lemma healthy_insert s uid r :
  healthy s -> well_formed r ->
  healthy (mkState (<[uid := r]> (user_request_data s)) (request_count_file s)).
Proof.
  intros Hs Hr k r'. cbn [user_request_data].
  destruct (decide (uid = k)) as [->|Hne].
  - rewrite lookup_insert_eq. by intros [= <-].
  - rewrite lookup_insert_ne by done. apply Hs.
Qed.

Lemma on_message_healthy msg w s :
  healthy s ->
  result_of (on_message msg w s) = Return tt
  /\ healthy (state_of (on_message msg w s)).
Proof.
  intros Hs. destruct (author_is_self msg) eqn:Hself.
  { unfold on_message. by rewrite Hself. }
  assert (Hpresent : forall s0 r,
            healthy s0 -> user_request_data s0 !! author_id msg = Some r ->
            result_of (on_message msg w s0) = Return tt
            /\ healthy (state_of (on_message msg w s0))).
  { intros s0 r H0 Hr.
    destruct (well_formed_typed r (H0 _ _ Hr))
      as (t1 & t2 & c & ic & Hcomp & Hc & Hic & Bc & Bic).
    destruct (on_message_typed msg w s0 r t1 t2 c ic Hself Hr Hcomp Hc Hic)
      as [-> ->].
    split; [done|]. cbn zeta.
    intros k r'. cbn [user_request_data].
    apply (healthy_insert s0 (author_id msg) _ H0).
    by apply after_message_well_formed. }
  destruct (user_request_data s !! author_id msg) as [r|] eqn:Hr.
  - by apply (Hpresent s r).
  - destruct (on_message_absent msg w s Hself Hr) as [-> ->].
    apply (Hpresent _ (new_user_data (now_check w))).
    + apply healthy_insert; [done | apply new_user_data_well_formed].
    + cbn [user_request_data]. by rewrite lookup_insert_eq.
Qed.

Lemma lookup_insert_iso (r : record) k v key t :
  <[k := v]> r !! key = Some (JIso t) -> v = JIso t \/ r !! key = Some (JIso t).
Proof. rewrite lookup_insert. case_decide; [intros [= ->]; by left | by right]. Qed.

(** A timestamp of the record after a message is the clock reading of
    the check or a timestamp of the record before. *)
Lemma after_message_timestamps msg now t1 t2 c ic (r : record) key t :
  after_message msg now t1 t2 c ic r !! key = Some (JIso t) ->
  t = now \/ r !! key = Some (JIso t).
Proof.
  unfold after_message, refreshed, reset_text, reset_image.
  destruct (startswith (content msg) "!ask"), (startswith (content msg) "!make"),
    (expired now t1), (expired now t2);
    repeat match goal with |- context [if ?b then _ else _] => destruct b end.
  all: intros H;
    repeat (apply lookup_insert_iso in H as [H|H];
            [first [discriminate H | injection H as <-; by left]|]);
    by right.
Qed.

Lemma new_user_data_timestamps now key t :
  new_user_data now !! key = Some (JIso t) -> t = now.
Proof.
  unfold new_user_data. intros H.
  repeat (apply lookup_insert_iso in H as [H|H];
          [first [discriminate H | by injection H as <-]|]).
  by rewrite lookup_empty in H.
Qed.

Lemma below_datetime_max_insert s uid (r : record) :
  below_datetime_max s ->
  (forall key t, r !! key = Some (JIso t) ->
                 t + timedelta_hours RESET_HOURS <= datetime_max) ->
  forall f, below_datetime_max (mkState (<[uid := r]> (user_request_data s)) f).
Proof.
  intros Hs Hr f k r' key t. cbn [user_request_data].
  destruct (decide (uid = k)) as [->|Hne].
  - rewrite lookup_insert_eq. intros [= <-]. apply Hr.
  - rewrite lookup_insert_ne by done. apply Hs.
Qed.

Lemma on_message_below_datetime_max msg w s :
  healthy s ->
  below_datetime_max s ->
  now_check w + timedelta_hours RESET_HOURS <= datetime_max ->
  below_datetime_max (state_of (on_message msg w s)).
Proof.
  intros Hs Hb Hnow. destruct (author_is_self msg) eqn:Hself.
  { unfold on_message. by rewrite Hself. }
  assert (Hpresent : forall s0 r,
            healthy s0 -> below_datetime_max s0 ->
            user_request_data s0 !! author_id msg = Some r ->
            below_datetime_max (state_of (on_message msg w s0))).
  { intros s0 r H0 Hb0 Hr.
    destruct (well_formed_typed r (H0 _ _ Hr))
      as (t1 & t2 & c & ic & Hcomp & Hc & Hic & Bc & Bic).
    destruct (on_message_typed msg w s0 r t1 t2 c ic Hself Hr Hcomp Hc Hic)
      as [_ ->].
    cbn zeta. apply below_datetime_max_insert; [done|].
    intros key t Ht.
    destruct (after_message_timestamps _ _ _ _ _ _ _ _ _ Ht) as [->|Hold];
      [done | by apply (Hb0 _ _ _ _ Hr Hold)]. }
  destruct (user_request_data s !! author_id msg) as [r|] eqn:Hr.
  - by apply (Hpresent s r).
  - destruct (on_message_absent msg w s Hself Hr) as [_ ->].
    apply (Hpresent _ (new_user_data (now_check w))).
    + apply healthy_insert; [done | apply new_user_data_well_formed].
    + apply below_datetime_max_insert; [done|].
      intros key t Ht. by rewrite (new_user_data_timestamps _ _ _ Ht).
    + cbn [user_request_data]. by rewrite lookup_insert_eq.
Qed.

(** X8: on a mapping in which every record has both timestamps and
    both counters within their limits, and no timestamp is within 24
    hours of [datetime.max] (so that line 78 cannot overflow, which the
    embedding does not model), the handler never raises, whatever the
    message, the clock and the remote service do, and it leaves a
    mapping with records of that kind again: the text counter of every
    user stays between 0 and 24 and the image counter between 0 and
    12.  When the clock of the check is itself more than 24 hours
    before [datetime.max], the timestamps stay that far from it too. *)
Theorem healthy_mapping_is_kept msg w s :
  healthy s ->
  below_datetime_max s ->
  result_of (on_message msg w s) = Return tt
  /\ healthy (state_of (on_message msg w s))
  /\ (now_check w + timedelta_hours RESET_HOURS <= datetime_max ->
      below_datetime_max (state_of (on_message msg w s))).
Proof.
  intros Hs Hb. destruct (on_message_healthy msg w s Hs) as [H1 H2].
  split; [done|]. split; [done|]. by apply on_message_below_datetime_max.
Qed.

Lemma sample_state_below_datetime_max uid (c ic : json) t1 t2 :
  (forall t, c = JIso t -> t + timedelta_hours RESET_HOURS <= datetime_max) ->
  (forall t, ic = JIso t -> t + timedelta_hours RESET_HOURS <= datetime_max) ->
  t1 + timedelta_hours RESET_HOURS <= datetime_max ->
  t2 + timedelta_hours RESET_HOURS <= datetime_max ->
  below_datetime_max (sample_state uid (sample_record c ic t1 t2)).
Proof.
  intros Hc Hic H1 H2 k r key t. unfold sample_state. cbn [user_request_data].
  destruct (decide (k = uid)) as [->|Hne].
  - rewrite lookup_singleton_eq. intros [= <-]. unfold sample_record. intros H.
    repeat (apply lookup_insert_iso in H as [H|H];
            [first [by apply Hc | by apply Hic | by injection H as <-]|]).
    by rewrite lookup_empty in H.
  - by rewrite lookup_singleton_ne.
Qed.

Lemma healthy_mapping_is_kept_witness :
  let s := sample_state "7" (sample_record (JInt 24) (JInt 11) 0 0) in
  let w := mkWorld 1000 1000 (fun _ => Failed APIConnectionError) in
  result_of (on_message (mkMessage false "7" "!make a cat" []) w s) = Return tt.
Proof.
  intros s w.
  refine (proj1 (healthy_mapping_is_kept (mkMessage false "7" "!make a cat" []) w s _ _)).
  - intros uid r. unfold s, sample_state. cbn [user_request_data].
    destruct (decide (uid = "7")) as [->|Hne].
    + rewrite lookup_singleton_eq. intros [= <-].
      exists 0, 0, 24, 11. unfold REQUEST_LIMIT, IMAGE_REQUEST_LIMIT.
      repeat split; done.
    + rewrite lookup_singleton_ne by done. discriminate.
  - apply sample_state_below_datetime_max; try discriminate;
      vm_compute; discriminate.
Defined.

Lemma run_healthy inputs : forall s,
  healthy s ->
  healthy (run inputs s)
  /\ Forall (fun res => res = Return tt) (run_results inputs s).
Proof.
  induction inputs as [|[msg w] rest IH]; intros s Hs; cbn [run run_results].
  - by split.
  - destruct (on_message_healthy msg w s Hs) as [Hres Hs'].
    destruct (IH _ Hs') as [H1 H2]. split; [done|]. by constructor.
Qed.

(** X9: started without a file, the program never lets an exception
    out of the handler and never holds a counter beyond its limit:
    after any sequence of messages every handler run has returned and
    every record has both timestamps, a text counter between 0 and 24
    and an image counter between 0 and 12. *)
Theorem fresh_start_never_raises inputs :
  let s0 := fst (load None) in
  healthy (run inputs s0)
  /\ Forall (fun res => res = Return tt) (run_results inputs s0).
Proof.
  cbv zeta. apply run_healthy. intros uid r. cbn. by rewrite lookup_empty.
Qed.

(** ** What can leave the handler *)

Lemma check_and_reset_raises s uid now e :
  result_of (check_and_reset_user_count uid now s) = Raise e -> builtin e.
Proof.
  destruct (user_request_data s !! uid) as [r|] eqn:Hs.
  - pose proof (check_and_reset_present (user_request_data s)
                  (request_count_file s) uid now r) as Hrun.
    rewrite <- (state_present s uid r Hs) in Hrun. rewrite Hrun.
    destruct (check_outcome now (defaults now r)) as [[e' r']|r2] eqn:Eo;
      [|discriminate].
    intros [= <-]. apply (check_outcome_inl _ _ _ _ Eo).
  - by rewrite (check_and_reset_new s uid now Hs).
Qed.

Lemma on_message_command_raises d f uid r msg w e :
  result_of (on_message_command uid msg w (mkState (<[uid := r]> d) f)) = Raise e ->
  builtin e.
Proof.
  unfold on_message_command.
  destruct (startswith (content msg) "!ask").
  { rewrite on_message_ask_run.
    destruct (counter (r !! "count")) as [e1|n] eqn:E1.
    { intros [= <-]. by apply counter_builtin in E1. }
    destruct (n >=? REQUEST_LIMIT); [|discriminate].
    destruct (timestamp (r !! "last_reset")) as [e2|t] eqn:E2; [|discriminate].
    intros [= <-]. by apply timestamp_builtin in E2. }
  destruct (startswith (content msg) "!make"); [|discriminate].
  rewrite on_message_make_run.
  destruct (counter (r !! "image_count")) as [e1|n] eqn:E1.
  { intros [= <-]. by apply counter_builtin in E1. }
  destruct (n >=? IMAGE_REQUEST_LIMIT); [|discriminate].
  destruct (timestamp (r !! "last_image_reset")) as [e2|t] eqn:E2; [|discriminate].
  intros [= <-]. by apply timestamp_builtin in E2.
Qed.

(** X10: whatever the mapping holds and whatever the remote service
    does, as long as no stored timestamp and not the clock is within 24
    hours of [datetime.max] (so that line 78 cannot overflow, which the
    embedding does not model), an exception that leaves [on_message] is
    a [KeyError], a [ValueError] or a [TypeError] raised by the quota
    bookkeeping outside the [try]: no exception of a remote call, of
    whatever class, leaves the handler. *)
Theorem only_bookkeeping_errors_escape msg w s e :
  below_datetime_max s ->
  now_check w + timedelta_hours RESET_HOURS <= datetime_max ->
  result_of (on_message msg w s) = Raise e -> builtin e.
Proof.
  intros _ _.
  destruct (author_is_self msg) eqn:Hself.
  { unfold on_message. rewrite Hself. discriminate. }
  destruct (check_and_reset_user_count (author_id msg) (now_check w) s)
    as [[[[]|e1] s1] l1] eqn:E.
  - rewrite (on_message_after_check msg w s s1 l1 Hself E).
    destruct (check_and_reset_returns _ _ _ _ _ E) as (r1 & t1 & t2 & -> & _ & _).
    unfold result_of at 1; cbn [fst]. apply on_message_command_raises.
  - rewrite (on_message_not_self msg w s Hself).
    erewrite bind_raise by exact E. intros [= <-].
    apply (check_and_reset_raises s (author_id msg) (now_check w)).
    by rewrite E.
Qed.

Lemma only_bookkeeping_errors_escape_witness :
  builtin TypeError.
Proof.
  apply (only_bookkeeping_errors_escape
           (mkMessage false "7" "!ask hello" [])
           (mkWorld 5 5 (fun _ => Failed RateLimitError))
           (sample_state "7" (sample_record (JStr "many") (JInt 0) 0 0))).
  - apply sample_state_below_datetime_max; try discriminate;
      vm_compute; discriminate.
  - vm_compute. discriminate.
  - vm_compute. reflexivity.
Defined.

(** ** Remote calls of a request that passes the quota *)

Lemma on_message_granted_ask msg w s s1 l1 n :
  author_is_self msg = false ->
  check_and_reset_user_count (author_id msg) (now_check w) s = (Return tt, s1, l1) ->
  startswith (content msg) "!ask" = true ->
  field s1 (author_id msg) "count" = Some (JInt n) ->
  n < REQUEST_LIMIT ->
  exists r,
    user_request_data s1 !! author_id msg = Some r
    /\ let m := <[author_id msg := <["count" := JInt (n + 1)]> r]>
                  (user_request_data s1) in
       on_message msg w s
       = (Return tt, mkState m (Some m),
          (l1 ++ Saved m
              :: events_of (try_except (ask_remote msg w) ask_handlers
                              (mkState m (Some m))))%list).
Proof.
  intros Hself Hcheck Hask Hc Hn.
  rewrite (on_message_after_check msg w s s1 l1 Hself Hcheck).
  destruct (check_and_reset_returns _ _ _ _ _ Hcheck)
    as (r1 & t1 & t2 & -> & _ & _).
  rewrite field_present in Hc. exists r1. cbn [user_request_data].
  split; [by rewrite lookup_insert_eq|].
  unfold on_message_command. rewrite Hask, on_message_ask_run, Hc.
  cbn [counter]. rewrite Z.geb_leb, (proj2 (Z.leb_gt _ _) Hn).
  cbn zeta. unfold result_of, state_of, events_of; cbn [fst snd].
  by rewrite insert_insert_eq.
Qed.

Lemma on_message_granted_make msg w s s1 l1 n :
  author_is_self msg = false ->
  check_and_reset_user_count (author_id msg) (now_check w) s = (Return tt, s1, l1) ->
  startswith (content msg) "!ask" = false ->
  startswith (content msg) "!make" = true ->
  field s1 (author_id msg) "image_count" = Some (JInt n) ->
  n < IMAGE_REQUEST_LIMIT ->
  exists r,
    user_request_data s1 !! author_id msg = Some r
    /\ let m := <[author_id msg := <["image_count" := JInt (n + 1)]> r]>
                  (user_request_data s1) in
       on_message msg w s
       = (Return tt, mkState m (Some m),
          (l1 ++ Saved m
              :: events_of (try_except (make_remote msg w) make_handlers
                              (mkState m (Some m))))%list).
Proof.
  intros Hself Hcheck Hask Hmake Hc Hn.
  rewrite (on_message_after_check msg w s s1 l1 Hself Hcheck).
  destruct (check_and_reset_returns _ _ _ _ _ Hcheck)
    as (r1 & t1 & t2 & -> & _ & _).
  rewrite field_present in Hc. exists r1. cbn [user_request_data].
  split; [by rewrite lookup_insert_eq|].
  unfold on_message_command. rewrite Hask, Hmake, on_message_make_run, Hc.
  cbn [counter]. rewrite Z.geb_leb, (proj2 (Z.leb_gt _ _) Hn).
  cbn zeta. unfold result_of, state_of, events_of; cbn [fst snd].
  by rewrite insert_insert_eq.
Qed.

(** X11: when a request passes the quota, the incremented counter is
    written to the file before the first remote call, and whatever the
    remote calls do the handler returns with that counter in memory
    and in the file: a failed call is not given back.  This holds for
    [!ask] with the text counter and for [!make] with the image
    counter. *)
Theorem quota_is_spent_before_the_call msg w s s1 l1 n :
  author_is_self msg = false ->
  check_and_reset_user_count (author_id msg) (now_check w) s = (Return tt, s1, l1) ->
  (startswith (content msg) "!ask" = true ->
   field s1 (author_id msg) "count" = Some (JInt n) ->
   n < REQUEST_LIMIT ->
   exists r text url l,
     user_request_data s1 !! author_id msg = Some r
     /\ let m := <[author_id msg := <["count" := JInt (n + 1)]> r]>
                   (user_request_data s1) in
        on_message msg w s
        = (Return tt, mkState m (Some m),
           (l1 ++ Saved m :: Called (ChatCompletion text url) :: l)%list))
  /\ (startswith (content msg) "!ask" = false ->
      startswith (content msg) "!make" = true ->
      field s1 (author_id msg) "image_count" = Some (JInt n) ->
      n < IMAGE_REQUEST_LIMIT ->
      exists r prompt l,
        user_request_data s1 !! author_id msg = Some r
        /\ let m := <[author_id msg := <["image_count" := JInt (n + 1)]> r]>
                      (user_request_data s1) in
           on_message msg w s
           = (Return tt, mkState m (Some m),
              (l1 ++ Saved m :: Called (ImageGenerate prompt) :: l)%list)).
Proof.
  intros Hself Hcheck. split.
  - intros Hask Hc Hn.
    destruct (on_message_granted_ask msg w s s1 l1 n Hself Hcheck Hask Hc Hn)
      as (r & Hr & Hrun).
    cbn zeta in Hrun. rewrite Hrun.
    match goal with
    | |- context [try_except (ask_remote msg w) ask_handlers ?s2] =>
        destruct (try_except_catch_all (ask_remote msg w) ask_handlers s2
                    ask_handlers_catch_all) as (_ & _ & l & Hev);
        destruct (ask_remote_calls_first msg w s2) as (text & url & l' & Hfirst)
    end.
    rewrite Hev, Hfirst. exists r, text, url, (l' ++ l)%list. by split.
  - intros Hask Hmake Hc Hn.
    destruct (on_message_granted_make msg w s s1 l1 n Hself Hcheck Hask Hmake Hc Hn)
      as (r & Hr & Hrun).
    cbn zeta in Hrun. rewrite Hrun.
    match goal with
    | |- context [try_except (make_remote msg w) make_handlers ?s2] =>
        destruct (try_except_catch_all (make_remote msg w) make_handlers s2
                    make_handlers_catch_all) as (_ & _ & l & Hev);
        destruct (make_remote_calls_first msg w s2) as (l' & Hfirst)
    end.
    rewrite Hev, Hfirst. eexists r, _, (l' ++ l)%list. by split.
Qed.

Lemma quota_is_spent_before_the_call_witness :
  let s := sample_state "7" (sample_record (JInt 3) (JInt 0) 0 0) in
  let w := mkWorld 1000 1000 (fun _ => Failed APIError) in
  let msg := mkMessage false "7" "!make a cat" [] in
  let checked := check_and_reset_user_count "7" 1000 s in
  exists r prompt l,
    user_request_data (state_of checked) !! "7" = Some r
    /\ let m := <["7" := <["image_count" := JInt (0 + 1)]> r]>
                  (user_request_data (state_of checked)) in
       on_message msg w s
       = (Return tt, mkState m (Some m),
          (events_of checked ++ Saved m :: Called (ImageGenerate prompt) :: l)%list).
Proof.
  intros s w msg checked.
  refine (proj2 (quota_is_spent_before_the_call msg w s (state_of checked)
                   (events_of checked) 0 eq_refl _) eq_refl eq_refl _ _).
  - vm_compute. reflexivity.
  - vm_compute. reflexivity.
  - unfold IMAGE_REQUEST_LIMIT. lia.
Defined.

(** ** The events of a run *)

Lemma startswith_nonempty (s p : string) :
  p <> "" -> startswith s p = true -> s <> "".
Proof. intros Hp H ->. destruct p; [done|discriminate]. Qed.

Section emitting.
Context (P : event -> Prop).

Lemma emits_ret {A} (a : A) : emits P (ret a).
Proof. intros s. constructor. Qed.

Lemma emits_raise {A} e : emits P (@raise A e).
Proof. intros s. constructor. Qed.

Lemma emits_emit e : P e -> emits P (emit e).
Proof. intros He s. by repeat constructor. Qed.

Lemma emits_bind {A B} (m : M A) (k : A -> M B) :
  emits P m -> (forall a, emits P (k a)) -> emits P (bind m k).
Proof.
  intros Hm Hk s. specialize (Hm s). unfold bind, events_of in *.
  destruct (m s) as [[[a|e] s1] l1]; cbn in *; [|done].
  specialize (Hk a s1). destruct (k a s1) as [[r2 s2] l2]; cbn in *.
  by apply Forall_app.
Qed.

Lemma emits_when b (m : M unit) : emits P m -> emits P (when b m).
Proof. destruct b; cbn; [done|]. intros _. apply emits_ret. Qed.

Lemma emits_try_except body handlers :
  emits P body ->
  Forall (fun h => forall e, emits P (snd h e)) handlers ->
  emits P (try_except body handlers).
Proof.
  intros Hb Hh s. specialize (Hb s). unfold try_except, events_of in *.
  destruct (body s) as [[[a|e] s1] l1]; cbn in *; [done|].
  destruct (find _ handlers) as [h|] eqn:E; [|done].
  apply find_some in E as [Hin _]. apply list_elem_of_In in Hin.
  rewrite Forall_forall in Hh. specialize (Hh h Hin e s1).
  destruct (snd h e s1) as [[r2 s2] l2]; cbn in *. by apply Forall_app.
Qed.

Lemma emits_get_user uid : emits P (get_user uid).
Proof. intros s. unfold get_user, events_of. destruct (_ !! _); constructor. Qed.

Lemma emits_getitem uid key : emits P (getitem uid key).
Proof.
  apply emits_bind; [apply emits_get_user|]. intros r.
  destruct (r !! key); [apply emits_ret | apply emits_raise].
Qed.

Lemma emits_has_key uid key : emits P (has_key uid key).
Proof. apply emits_bind; [apply emits_get_user|]. intros; apply emits_ret. Qed.

Lemma emits_setitem uid key v : emits P (setitem uid key v).
Proof.
  apply emits_bind; [apply emits_get_user|]. intros r s. constructor.
Qed.

Lemma emits_fromisoformat v : emits P (fromisoformat v).
Proof. destruct v; first [apply emits_raise | apply emits_ret]. Qed.

Lemma emits_datetime_sub a b : emits P (datetime_sub a b).
Proof. destruct a, b; first [apply emits_raise | apply emits_ret]. Qed.

Lemma emits_ge_limit v limit : emits P (ge_limit v limit).
Proof. destruct v; [apply emits_ret | apply emits_raise ..]. Qed.

Lemma emits_increment uid key : emits P (increment uid key).
Proof.
  apply emits_bind; [apply emits_getitem|]. intros [n|t|a|x];
    [apply emits_setitem | apply emits_raise ..].
Qed.

Lemma emits_time_until_reset uid reset_type now :
  emits P (time_until_reset uid reset_type now).
Proof.
  apply emits_bind; [apply emits_getitem|]. intros v.
  apply emits_bind; [apply emits_fromisoformat|]. intros t.
  apply emits_bind; [apply emits_datetime_sub|]. intros x. apply emits_ret.
Qed.

Lemma emits_call r o : P (Called r) -> emits P (call r o).
Proof.
  intros Hr. apply emits_bind; [by apply emits_emit|]. intros _.
  destruct o; [apply emits_ret | apply emits_raise].
Qed.

Context (P_saved : forall m, P (Saved m)).
Context (P_sent : forall text, P (Sent text)).
Context (P_printed : forall line e, P (Printed line e)).

Lemma emits_save : emits P save_user_request_data.
Proof. intros s. by repeat constructor. Qed.

Lemma emits_check_and_reset uid now : emits P (check_and_reset_user_count uid now).
Proof.
  unfold check_and_reset_user_count.
  apply emits_bind; [intros s; constructor|]. intros [|]; cbn [negb].
  - do 3 (apply emits_bind; [apply emits_has_key|]; intros ?;
          apply emits_bind; [apply emits_when, emits_setitem|]; intros _).
    apply emits_bind; [apply emits_getitem|]. intros v1.
    apply emits_bind; [apply emits_fromisoformat|]. intros t1.
    apply emits_bind; [apply emits_getitem|]. intros v2.
    apply emits_bind; [apply emits_fromisoformat|]. intros t2.
    do 2 (apply emits_bind; [apply emits_datetime_sub|]; intros ?;
          apply emits_bind;
          [apply emits_when, emits_bind; [|intros _]; apply emits_setitem|];
          intros _).
    apply emits_save.
  - apply emits_bind; [intros s; constructor | intros _; apply emits_save].
Qed.

Lemma emits_apologise line reply e : emits P (apologise line reply e).
Proof. apply emits_bind; [|intros _]; by apply emits_emit. Qed.

Lemma emits_handlers :
  Forall (fun h : exn_class * (exn_class -> M unit) =>
            forall e, emits P (snd h e)) ask_handlers
  /\ Forall (fun h : exn_class * (exn_class -> M unit) =>
            forall e, emits P (snd h e)) make_handlers.
Proof.
  split;
    repeat (apply Forall_cons_2; [intros e; apply emits_apologise|]);
    apply Forall_nil_2.
Qed.

Lemma emits_ask_attachments text w atts : forall i,
  (forall u, In u atts ->
     P (Called (ChatCompletion
                  (if decide (text = "") then "What's in this image?" else text)
                  (Some u)))) ->
  emits P (ask_attachments text w i atts).
Proof.
  induction atts as [|u atts IH]; intros i Hc; cbn [ask_attachments].
  - apply emits_ret.
  - apply emits_bind; [apply emits_call, Hc; by left|]. intros response.
    apply emits_bind; [by apply emits_emit|]. intros _.
    apply IH. intros u' Hu'. apply Hc. by right.
Qed.

Lemma emits_ask_remote msg w :
  content msg <> "" ->
  (attachments msg = [] -> P (Called (ChatCompletion (content msg) None))) ->
  (forall u, In u (attachments msg) ->
     P (Called (ChatCompletion (content msg) (Some u)))) ->
  emits P (ask_remote msg w).
Proof.
  intros Hne Hnone Hsome. unfold ask_remote.
  destruct (attachments msg) as [|u atts] eqn:E.
  - apply emits_bind; [by apply emits_call, Hnone|]. intros.
    by apply emits_emit.
  - apply emits_ask_attachments. rewrite decide_False by done. exact Hsome.
Qed.

Lemma emits_make_remote msg w :
  P (Called (ImageGenerate (strip (slice_from 6 (content msg))))) ->
  emits P (make_remote msg w).
Proof.
  intros Hp. apply emits_bind; [by apply emits_call|]. intros.
  by apply emits_emit.
Qed.

Lemma emits_on_message_ask uid msg w :
  content msg <> "" ->
  (attachments msg = [] -> P (Called (ChatCompletion (content msg) None))) ->
  (forall u, In u (attachments msg) ->
     P (Called (ChatCompletion (content msg) (Some u)))) ->
  emits P (on_message_ask uid msg w).
Proof.
  intros Hne Hnone Hsome. unfold on_message_ask.
  apply emits_bind; [apply emits_getitem|]. intros c.
  apply emits_bind; [apply emits_ge_limit|]. intros [|].
  - apply emits_bind; [apply emits_time_until_reset|]. intros.
    by apply emits_emit.
  - apply emits_try_except; [|apply emits_handlers].
    apply emits_bind; [apply emits_increment|]. intros _.
    apply emits_bind; [apply emits_save|]. intros _.
    by apply emits_ask_remote.
Qed.

Lemma emits_on_message_make uid msg w :
  P (Called (ImageGenerate (strip (slice_from 6 (content msg))))) ->
  emits P (on_message_make uid msg w).
Proof.
  intros Hp. unfold on_message_make.
  apply emits_bind; [apply emits_getitem|]. intros c.
  apply emits_bind; [apply emits_ge_limit|]. intros [|].
  - apply emits_bind; [apply emits_time_until_reset|]. intros.
    by apply emits_emit.
  - apply emits_try_except; [|apply emits_handlers].
    apply emits_bind; [apply emits_increment|]. intros _.
    apply emits_bind; [apply emits_save|]. intros _.
    by apply emits_make_remote.
Qed.

Lemma emits_on_message msg w :
  (attachments msg = [] -> P (Called (ChatCompletion (content msg) None))) ->
  (forall u, In u (attachments msg) ->
     P (Called (ChatCompletion (content msg) (Some u)))) ->
  P (Called (ImageGenerate (strip (slice_from 6 (content msg))))) ->
  emits P (on_message msg w).
Proof.
  intros Hnone Hsome Himg. unfold on_message.
  destruct (author_is_self msg); [apply emits_ret|].
  apply emits_bind; [apply emits_check_and_reset|]. intros _.
  unfold on_message_command.
  destruct (startswith (content msg) "!ask") eqn:Hask.
  { apply emits_on_message_ask; [|done..].
    by apply (startswith_nonempty _ "!ask"). }
  destruct (startswith (content msg) "!make").
  - by apply emits_on_message_make.
  - apply emits_ret.
Qed.
End emitting.

(** X12: every remote call of a handler run is fixed by the message:
    a completion call carries the whole text of the message, trigger
    included, and either no image when the message has no attachment
    or the url of one of its attachments; an image call carries the
    text cut after its first six characters and stripped.  In
    particular the default prompt for an empty text is never sent. *)
Theorem remote_calls_are_fixed_by_the_message msg w s req :
  In (Called req) (events_of (on_message msg w s)) ->
  (req = ChatCompletion (content msg) None /\ attachments msg = [])
  \/ (exists u, req = ChatCompletion (content msg) (Some u)
                /\ In u (attachments msg))
  \/ req = ImageGenerate (strip (slice_from 6 (content msg))).
Proof.
  intros Hin.
  pose (P := fun e : event =>
    match e with
    | Called req =>
        (req = ChatCompletion (content msg) None /\ attachments msg = [])
        \/ (exists u, req = ChatCompletion (content msg) (Some u)
                      /\ In u (attachments msg))
        \/ req = ImageGenerate (strip (slice_from 6 (content msg)))
    | _ => True
    end).
  assert (H : emits P (on_message msg w)).
  { apply emits_on_message; unfold P; try done.
    - intros Hno. by left.
    - intros u Hu. right. left. eauto.
    - by right; right. }
  specialize (H s). rewrite Forall_forall in H.
  apply list_elem_of_In in Hin. exact (H _ Hin).
Qed.

Lemma remote_calls_are_fixed_by_the_message_witness :
  let s := sample_state "7" (sample_record (JInt 3) (JInt 0) 0 0) in
  let w := mkWorld 1000 1000 (fun _ => Responded "a cat") in
  let msg := mkMessage false "7" "!ask what is this" ["u1"; "u2"] in
  (ChatCompletion "!ask what is this" (Some "u2")
   = ChatCompletion (content msg) None /\ attachments msg = [])
  \/ (exists u, ChatCompletion "!ask what is this" (Some "u2")
                = ChatCompletion (content msg) (Some u)
                /\ In u (attachments msg))
  \/ ChatCompletion "!ask what is this" (Some "u2")
     = ImageGenerate (strip (slice_from 6 (content msg))).
Proof.
  intros s w msg.
  apply (remote_calls_are_fixed_by_the_message msg w s).
  vm_compute. do 4 right. left. reflexivity.
Defined.

(** ** Attachments *)

Lemma calls_app l1 l2 : calls (l1 ++ l2)%list = (calls l1 + calls l2)%nat.
Proof. unfold calls. by rewrite List.filter_app, length_app. Qed.

Lemma calls_saved_cons m l : calls (Saved m :: l) = calls l.
Proof. reflexivity. Qed.

Lemma try_except_calls body handlers s :
  catch_all handlers ->
  calls (events_of (try_except body handlers s)) = calls (events_of (body s)).
Proof.
  intros Hc. unfold try_except, events_of.
  destruct (body s) as [[[[]|e] s1] l1]; cbn [snd]; [done|].
  destruct (Hc e) as (line & reply & Hsel). unfold selected in Hsel.
  destruct (find _ handlers) as [h|]; [|done].
  cbn [fmap option_fmap option_map] in Hsel. injection Hsel as ->.
  unfold apologise, bind, emit. cbn [app snd]. rewrite calls_app.
  unfold calls at 2. cbn [List.filter is_call length]. lia.
Qed.

Lemma ask_attachments_cons_events text w i u atts s :
  events_of (ask_attachments text w i (u :: atts) s)
  = Called (ChatCompletion
              (if decide (text = "") then "What's in this image?" else text)
              (Some u))
    :: match api w i with
       | Responded t =>
           Sent (strip t) :: events_of (ask_attachments text w (S i) atts s)
       | Failed _ => []
       end.
Proof.
  cbn [ask_attachments]. cbv [bind call emit ret raise events_of].
  destruct (api w i); cbn [snd app]; [|done].
  by destruct (ask_attachments text w (S i) atts s) as [[? ?] ?].
Qed.

Lemma ask_attachments_calls text w atts : forall i s,
  (calls (events_of (ask_attachments text w i atts s)) <= length atts)%nat
  /\ (atts <> [] -> (1 <= calls (events_of (ask_attachments text w i atts s)))%nat)
  /\ ((forall j, (j < length atts)%nat -> exists t, api w (i + j)%nat = Responded t) ->
      calls (events_of (ask_attachments text w i atts s)) = length atts).
Proof.
  induction atts as [|u atts IH]; intros i s.
  { cbn. split; [lia|]. split; [done|]. reflexivity. }
  rewrite ask_attachments_cons_events. cbn [length].
  destruct (api w i) as [t|e] eqn:E.
  - destruct (IH (S i) s) as (Hle & _ & Hall).
    match goal with
    | |- context [calls (?c :: Sent ?x :: ?l)] =>
        change (calls (c :: Sent x :: l)) with (S (calls l))
    end.
    split; [lia|]. split; [lia|].
    intros Hresp. rewrite Hall; [done|].
    intros j Hj. destruct (Hresp (S j) ltac:(lia)) as [t' Ht'].
    exists t'. by rewrite <- Ht', Nat.add_succ_r.
  - match goal with
    | |- context [calls [?c]] => change (calls [c]) with 1%nat
    end.
    split; [lia|]. split; [lia|].
    intros Hresp. destruct (Hresp 0%nat ltac:(lia)) as [t Ht].
    rewrite Nat.add_0_r in Ht. congruence.
Qed.

Lemma ask_remote_calls msg w s :
  (1 <= calls (events_of (ask_remote msg w s))
     <= Nat.max 1 (length (attachments msg)))%nat
  /\ ((forall j, (j < length (attachments msg))%nat ->
         exists t, api w j = Responded t) ->
      calls (events_of (ask_remote msg w s))
      = Nat.max 1 (length (attachments msg))).
Proof.
  unfold ask_remote. destruct (attachments msg) as [|u atts] eqn:E.
  - unfold bind, call, emit, events_of.
    destruct (api w 0%nat); cbn; split; (lia || done).
  - destruct (ask_attachments_calls (content msg) w (u :: atts) 0 s)
      as (Hle & Hge & Hall).
    specialize (Hge ltac:(done)). cbn [length] in *.
    split; [lia|]. intros Hresp. rewrite Hall; [lia|]. exact Hresp.
Qed.

(** X13: an [!ask] that passes the quota costs one request however
    many remote calls it makes: the text counter goes up by exactly
    one, while the run makes one completion call for a message without
    attachments and otherwise one per attachment, in order, until the
    first that fails; at least one call and at most one per
    attachment, and exactly that many when every call answers. *)
Theorem one_request_however_many_calls msg w s s1 l1 n :
  author_is_self msg = false ->
  check_and_reset_user_count (author_id msg) (now_check w) s = (Return tt, s1, l1) ->
  startswith (content msg) "!ask" = true ->
  field s1 (author_id msg) "count" = Some (JInt n) ->
  n < REQUEST_LIMIT ->
  let x := on_message msg w s in
  field (state_of x) (author_id msg) "count" = Some (JInt (n + 1))
  /\ (1 <= calls (events_of x) <= Nat.max 1 (length (attachments msg)))%nat
  /\ ((forall j, (j < length (attachments msg))%nat ->
         exists t, api w j = Responded t) ->
      calls (events_of x) = Nat.max 1 (length (attachments msg))).
Proof.
  intros Hself Hcheck Hask Hc Hn.
  destruct (on_message_granted_ask msg w s s1 l1 n Hself Hcheck Hask Hc Hn)
    as (r & Hr & Hrun).
  destruct (check_and_reset_returns _ _ _ _ _ Hcheck)
    as (r1 & t1 & t2 & _ & -> & _).
  cbv zeta in *. rewrite Hrun.
  match goal with
  | |- context [try_except (ask_remote msg w) ask_handlers ?s2] =>
      pose proof (try_except_calls (ask_remote msg w) ask_handlers s2
                    ask_handlers_catch_all) as Ht;
      pose proof (ask_remote_calls msg w s2) as Hb;
      set (E := events_of (try_except (ask_remote msg w) ask_handlers s2)) in *
  end.
  unfold state_of, events_of; cbn [fst snd].
  rewrite field_present, lookup_insert_eq.
  split; [done|].
  rewrite calls_app, !calls_saved_cons. change (calls []) with 0%nat.
  rewrite Nat.add_0_l, Ht. exact Hb.
Qed.

Lemma one_request_however_many_calls_witness :
  let s := sample_state "7" (sample_record (JInt 3) (JInt 0) 0 0) in
  let w := mkWorld 1000 1000 (fun _ => Responded "a cat") in
  let msg := mkMessage false "7" "!ask what is this" ["u1"; "u2"; "u3"] in
  field (state_of (on_message msg w s)) "7" "count" = Some (JInt (3 + 1))
  /\ calls (events_of (on_message msg w s)) = 3%nat.
Proof.
  intros s w msg.
  pose (checked := check_and_reset_user_count "7" 1000 s).
  assert (Hcheck : check_and_reset_user_count (author_id msg) (now_check w) s
                   = (Return tt, state_of checked, events_of checked))
    by (vm_compute; reflexivity).
  assert (Hc : field (state_of checked) (author_id msg) "count" = Some (JInt 3))
    by (vm_compute; reflexivity).
  destruct (one_request_however_many_calls msg w s _ _ 3 eq_refl Hcheck eq_refl Hc
              ltac:(unfold REQUEST_LIMIT; lia)) as (H1 & _ & H3).
  split; [exact H1|]. apply H3. intros j _. by eexists.
Defined.

(** ** Counting the image requests that pass the quota *)

Lemma make_is_not_ask (s : string) :
  startswith s "!make" = true -> startswith s "!ask" = false.
Proof.
  unfold startswith. destruct s as [|a [|b s]]; cbn [String.prefix].
  - done.
  - destruct (ascii_dec "!" a); done.
  - destruct (ascii_dec "!" a); [|done].
    destruct (ascii_dec "m" b) as [<-|]; [|done]. intros _.
    by destruct (ascii_dec "a" "m").
Qed.




Section image_window.
Context (uid : string) (t0 : Z).




End image_window.




(** ** The image prompt of a well-formed command *)

(** X15: for a text made of [!make] alone, or of [!make], one white
    space character and more text, an image request that passes the
    quota calls the image service with what follows the trigger,
    stripped of surrounding white space; for the bare trigger, or the
    trigger followed by white space only, that prompt is empty, and the
    request is counted and the service called all the same. *)
Theorem make_prompt_follows_the_trigger msg w s s1 l1 n tail :
  author_is_self msg = false ->
  check_and_reset_user_count (author_id msg) (now_check w) s = (Return tt, s1, l1) ->
  field s1 (author_id msg) "image_count" = Some (JInt n) ->
  n < IMAGE_REQUEST_LIMIT ->
  content msg = "!make" ++ tail ->
  tail = "" \/ (exists a rest, tail = String a rest /\ isspace a = true) ->
  In (Called (ImageGenerate (strip tail))) (events_of (on_message msg w s))
  /\ field (state_of (on_message msg w s)) (author_id msg) "image_count"
     = Some (JInt (n + 1))
  /\ (lstrip tail = "" -> strip tail = "").
Proof.
  intros Hself Hcheck Hc Hn Hcontent Htail.
  assert (Hmake : startswith (content msg) "!make" = true)
    by (rewrite Hcontent; destruct Htail as [->|(a & rest & -> & _)];
        vm_compute; reflexivity).
  pose proof (make_is_not_ask _ Hmake) as Hask.
  destruct (on_message_granted_make msg w s s1 l1 n Hself Hcheck Hask Hmake Hc Hn)
    as (r & Hr & Hrun).
  cbv zeta in Hrun. rewrite Hrun. unfold state_of, events_of at 1; cbn [fst snd].
  rewrite field_present, lookup_insert_eq.
  split; [|split; [done|]].
  - match goal with
    | |- context [try_except (make_remote msg w) make_handlers ?s2] =>
        destruct (try_except_catch_all (make_remote msg w) make_handlers s2
                    make_handlers_catch_all) as (_ & _ & l & Hev);
        destruct (make_remote_calls_first msg w s2) as (l' & Hfirst)
    end.
    rewrite Hev, Hfirst. apply in_or_app. right. right. left.
    rewrite Hcontent.
    destruct Htail as [->|(a & rest & -> & Ha)]; [reflexivity|].
    change (slice_from 6 ("!make" ++ String a rest)) with rest.
    unfold strip. cbn [lstrip]. by rewrite Ha.
  - intros Hl. unfold strip. by rewrite Hl.
Qed.

Lemma make_prompt_follows_the_trigger_witness :
  let s := sample_state "7" (sample_record (JInt 3) (JInt 0) 0 0) in
  let w := mkWorld 1000 1000 (fun _ => Responded "https://img/1") in
  let msg := mkMessage false "7" "!make  a red cat " [] in
  In (Called (ImageGenerate "a red cat")) (events_of (on_message msg w s)).
Proof.
  intros s w msg.
  pose (checked := check_and_reset_user_count "7" 1000 s).
  assert (Hcheck : check_and_reset_user_count (author_id msg) (now_check w) s
                   = (Return tt, state_of checked, events_of checked))
    by (vm_compute; reflexivity).
  assert (Hc : field (state_of checked) (author_id msg) "image_count"
               = Some (JInt 0)) by (vm_compute; reflexivity).
  refine (proj1 (make_prompt_follows_the_trigger msg w s _ _ 0 "  a red cat "
                   eq_refl Hcheck Hc _ eq_refl _)).
  - unfold IMAGE_REQUEST_LIMIT. lia.
  - right. exists " "%char, " a red cat ". by split.
Defined.

(** ** The reply of a denied request *)

(** X16: an [!ask] denied while the text window is still open at the
    second clock reading is answered with the quota text that names the
    whole hours and the whole minutes left until [last_reset + 24h];
    nothing else is sent. *)
Theorem denied_reply_names_the_time_left msg w s s1 l1 n last :
  author_is_self msg = false ->
  check_and_reset_user_count (author_id msg) (now_check w) s = (Return tt, s1, l1) ->
  startswith (content msg) "!ask" = true ->
  field s1 (author_id msg) "count" = Some (JInt n) ->
  REQUEST_LIMIT <= n ->
  field s1 (author_id msg) "last_reset" = Some (JIso last) ->
  0 <= last + timedelta_hours RESET_HOURS - now_wait w < timedelta_hours RESET_HOURS ->
  let d := last + timedelta_hours RESET_HOURS - now_wait w in
  events_of (on_message msg w s)
  = (l1 ++ [Sent (ask_quota_reply
                    (str_of_int (d / 3600000000) ++ "h"
                     ++ str_of_int ((d / 60000000) mod 60) ++ "m"))])%list.
Proof.
  intros Hself Hcheck Hask Hc Hn Hlast Hd d.
  rewrite (on_message_after_check msg w s s1 l1 Hself Hcheck).
  destruct (check_and_reset_returns _ _ _ _ _ Hcheck)
    as (r1 & t1 & t2 & -> & _ & _).
  rewrite field_present in Hc, Hlast.
  unfold on_message_command. rewrite Hask, on_message_ask_run, Hc, Hlast.
  cbn [counter timestamp]. rewrite (proj2 (Z.geb_le _ _) Hn).
  unfold events_of; cbn [snd]. fold d.
  by rewrite (render_wait_in_window d Hd).
Qed.

Lemma denied_reply_names_the_time_left_witness :
  let s := sample_state "7" (sample_record (JInt 24) (JInt 0) 0 0) in
  let w := mkWorld 1000 5400000000 (fun _ => Responded "hi") in
  let msg := mkMessage false "7" "!ask one more" [] in
  events_of (on_message msg w s)
  = (events_of (check_and_reset_user_count "7" 1000 s)
     ++ [Sent (ask_quota_reply "22h30m")])%list.
Proof.
  intros s w msg.
  pose (checked := check_and_reset_user_count "7" 1000 s).
  assert (Hcheck : check_and_reset_user_count (author_id msg) (now_check w) s
                   = (Return tt, state_of checked, events_of checked))
    by (vm_compute; reflexivity).
  refine (denied_reply_names_the_time_left msg w s _ _ 24 0 eq_refl Hcheck
            eq_refl _ _ _ _).
  - vm_compute. reflexivity.
  - unfold REQUEST_LIMIT. lia.
  - vm_compute. reflexivity.
  - unfold timedelta_hours, RESET_HOURS. cbn [now_wait w]. lia.
Defined.

(** ** The wait time is taken modulo one day *)

(** X17: [time_until_reset] reads only the [seconds] of the remaining
    time, so its answer does not change when the clock is moved by any
    whole number of days, forwards or backwards: a reset that is
    overdue by [x] is reported like one that is due in 24 hours minus
    [x]. *)
Theorem wait_time_ignores_whole_days s uid reset_type now k :
  result_of (time_until_reset uid reset_type
               (now + k * timedelta_hours RESET_HOURS) s)
  = result_of (time_until_reset uid reset_type now s).
Proof.
  destruct (user_request_data s !! uid) as [r|] eqn:Hs.
  - pose proof (time_until_reset_run (user_request_data s)
                  (request_count_file s) uid r reset_type) as Hrun.
    rewrite <- (state_present s uid r Hs) in Hrun. rewrite !Hrun.
    destruct (timestamp (r !! reset_type)) as [e|last]; [done|].
    unfold result_of; cbn [fst]. f_equal.
    unfold render_wait, timedelta_seconds, timedelta_hours, RESET_HOURS.
    replace (last + 24 * 3600 * 1000000 - (now + k * (24 * 3600 * 1000000)))
      with (last + 24 * 3600 * 1000000 - now + (- k) * 86400000000) by lia.
    by rewrite Z.mod_add by lia.
  - by rewrite !(time_until_reset_absent s uid reset_type _ Hs).
Qed.

(** ** Messages that are no command *)

(** X18: a message of the bot itself does nothing at all, so the bot
    never gets a record of its own; a message of anybody else that
    starts with neither trigger is not answered and calls nothing, but
    it does run [check_and_reset_user_count] for its author, which
    creates or refreshes the author's record and writes the file. *)
Theorem messages_without_a_command msg w s :
  (author_is_self msg = true -> on_message msg w s = (Return tt, s, []))
  /\ (author_is_self msg = false ->
      startswith (content msg) "!ask" = false ->
      startswith (content msg) "!make" = false ->
      on_message msg w s
      = check_and_reset_user_count (author_id msg) (now_check w) s).
Proof.
  split.
  - intros Hself. unfold on_message. by rewrite Hself.
  - intros Hself Hask Hmake. rewrite (on_message_not_self msg w s Hself).
    unfold bind, on_message_command. rewrite Hask, Hmake.
    destruct (check_and_reset_user_count _ _ s) as [[[[]|e] s1] l1]; [|done].
    unfold ret. by rewrite app_nil_r.
Qed.

Lemma messages_without_a_command_witness :
  let s := fst (load None) in
  let w := mkWorld 1000 1000 (fun _ => Responded "hi") in
  user_request_data (state_of (on_message (mkMessage false "7" "hello all" []) w s)) !! "7"
  = Some (new_user_data 1000)
  /\ user_request_data (state_of (on_message (mkMessage true "1" "!ask hi" []) w s)) !! "1"
     = None.
Proof.
  intros s w.
  destruct (messages_without_a_command (mkMessage false "7" "hello all" []) w s)
    as [_ H1].
  destruct (messages_without_a_command (mkMessage true "1" "!ask hi" []) w s)
    as [H2 _].
  rewrite (H1 eq_refl eq_refl eq_refl), (H2 eq_refl). by split.
Defined.

(** ** Restart *)

Lemma on_message_synced msg w s :
  healthy s ->
  request_count_file s = Some (user_request_data s) ->
  request_count_file (state_of (on_message msg w s))
  = Some (user_request_data (state_of (on_message msg w s))).
Proof.
  intros Hs Hf. destruct (author_is_self msg) eqn:Hself.
  { unfold on_message. by rewrite Hself. }
  destruct (check_and_reset_user_count (author_id msg) (now_check w) s)
    as [[[[]|e] s1] l1] eqn:E.
  - rewrite (on_message_after_check msg w s s1 l1 Hself E).
    destruct (check_and_reset_returns _ _ _ _ _ E) as (r1 & t1 & t2 & -> & _ & _).
    apply on_message_command_synced.
  - destruct (on_message_healthy msg w s Hs) as [Hret _].
    rewrite (on_message_not_self msg w s Hself) in Hret.
    erewrite bind_raise in Hret by exact E. discriminate.
Qed.

Lemma run_synced inputs : forall s,
  healthy s ->
  request_count_file s = Some (user_request_data s) ->
  request_count_file (run inputs s) = Some (user_request_data (run inputs s)).
Proof.
  induction inputs as [|[msg w] rest IH]; intros s Hs Hf; cbn [run]; [done|].
  apply IH; [by apply on_message_healthy | by apply on_message_synced].
Qed.

(** X19: a restart loses nothing: started without a file and stopped
    after any sequence of messages, the program started again on the
    file it left loads exactly the mapping it had in memory, and writes
    nothing while loading. *)
Theorem restart_restores_the_mapping inputs :
  let s := run inputs (fst (load None)) in
  load (request_count_file s) = (s, []).
Proof.
  cbv zeta.
  assert (H0 : healthy (fst (load None)))
    by (intros uid r; cbn; by rewrite lookup_empty).
  pose proof (run_synced inputs (fst (load None)) H0 eq_refl) as Hf.
  destruct (run inputs (fst (load None))) as [d f]. cbn in Hf. by subst f.
Qed.
